(** * evm-wallet: a shallow embedding of [evm_wallet/wallet.py] and
    [evm_wallet/_base_wallet.py]

    The wallet classes are thin wrappers around web3.  What they add is
    bookkeeping: network validation, the chain-id check, the cached nonce,
    unit conversion of balances and the explorer URL.  This development
    embeds that bookkeeping as Rocq functions and proves the properties the
    specification states about it.

    Conventions of the embedding
    - Python [int] is [Z]; [str] is [string]: a text of ASCII characters
      is the string itself, any other text is kept in its UTF-8 encoding.
      [upper] and [lower] map the letters a-z / A-Z of an ASCII text and
      leave its other characters alone, as [str.upper] and [str.lower] do;
      on any other text they are what the Unicode tables of the running
      interpreter give, a field of [World].  [bytes] is [list byte]; a
      [dict] with string keys is a [gmap string _].
    - A call that may raise returns a [result]; a method of a wallet object
      is a computation in the monad [M], which threads the object and keeps
      the mutations done before an exception.
    - Everything behind the web3 / eth_account API (the JSON-RPC node, the
      signer, address checksumming, contract calls) is a field of the record
      [World]: the development holds for every such world. *)

From Stdlib Require Import ZArith NArith Ascii String List.
From Stdlib.Strings Require Import Byte.
From stdpp Require Import base decidable option list strings gmap fin_maps pretty.

Local Open Scope Z_scope.
Local Open Scope string_scope.

(** ** Python values *)

Module Py.

(** The scalar values that occur as dictionary entries. *)
Inductive scalar : Type :=
| PyNone
| PyBool (b : bool)
| PyInt (z : Z)
| PyStr (s : string).

(** The objects a caller can pass to the wallet's methods.  [HexBytes] is
    the subclass of [bytes] the hexbytes package defines. *)
Inductive pyobj : Type :=
| PyScalar (v : scalar)
| PyBytes (b : list byte)
| PyHexBytes (b : list byte)
| PyDict (d : gmap string scalar).

Coercion PyScalar : scalar >-> pyobj.

(** [type(x)], as it is printed in an error message. *)
Inductive pytype : Type :=
| NoneType | bool_t | int_t | str_t | bytes_t | HexBytes_t | dict_t.

Definition type_of (x : pyobj) : pytype :=
  match x with
  | PyScalar PyNone => NoneType
  | PyScalar (PyBool _) => bool_t
  | PyScalar (PyInt _) => int_t
  | PyScalar (PyStr _) => str_t
  | PyBytes _ => bytes_t
  | PyHexBytes _ => HexBytes_t
  | PyDict _ => dict_t
  end.

(** [isinstance(x, bytes)]: true of [bytes] and of its subclass. *)
Definition isinstance_bytes (x : pyobj) : bool :=
  match x with
  | PyBytes _ | PyHexBytes _ => true
  | _ => false
  end.

Definition isinstance_HexBytes (x : pyobj) : bool :=
  match x with
  | PyHexBytes _ => true
  | _ => false
  end.

Definition isinstance_str (x : pyobj) : bool :=
  match x with
  | PyScalar (PyStr _) => true
  | _ => false
  end.

Global Instance scalar_eq_dec : EqDecision scalar.
Proof. solve_decision. Defined.

(** [a == b] on scalars: [bool] is a subclass of [int], so [True == 1];
    values of unrelated types are unequal. *)
Definition scalar_eqb (a b : scalar) : bool :=
  match a, b with
  | PyNone, PyNone => true
  | PyBool x, PyBool y => Bool.eqb x y
  | PyBool x, PyInt y | PyInt y, PyBool x => Z.eqb (Z.b2z x) y
  | PyInt x, PyInt y => Z.eqb x y
  | PyStr x, PyStr y => String.eqb x y
  | _, _ => false
  end.

(** [str(v)], which an f-string applies to an interpolated scalar. *)
Definition str (v : scalar) : string :=
  match v with
  | PyNone => "None"
  | PyBool true => "True"
  | PyBool false => "False"
  | PyInt z => pretty z
  | PyStr s => s
  end.

(** *** Letter case *)

Definition upper_ascii (c : ascii) : ascii :=
  let n := N_of_ascii c in
  if ((97 <=? n) && (n <=? 122))%N then ascii_of_N (n - 32) else c.

Definition lower_ascii (c : ascii) : ascii :=
  let n := N_of_ascii c in
  if ((65 <=? n) && (n <=? 90))%N then ascii_of_N (n + 32) else c.

Fixpoint map_string (f : ascii → ascii) (s : string) : string :=
  match s with
  | EmptyString => EmptyString
  | String c s' => String (f c) (map_string f s')
  end.

(** A text of ASCII characters: every character is below 128. *)
Definition is_ascii_char (c : ascii) : bool := (N_of_ascii c <? 128)%N.

Fixpoint is_ascii (s : string) : bool :=
  match s with
  | EmptyString => true
  | String c s' => is_ascii_char c && is_ascii s'
  end.

(** The case mappings of [str] on a text that is not ASCII: they follow the
    Unicode tables of the interpreter (['matıc'.upper()] is ['MATIC'],
    ['ß'.upper()] is ['SS']), which the embedding takes as given. *)
Record Unicode : Type := {
  unicode_upper : string → string;
  unicode_lower : string → string;
}.

(** [s.upper()] and [s.lower()]. *)
Definition upper (U : Unicode) (s : string) : string :=
  if is_ascii s then map_string upper_ascii s else unicode_upper U s.

Definition lower (U : Unicode) (s : string) : string :=
  if is_ascii s then map_string lower_ascii s else unicode_lower U s.

(** [s.startswith(p)]. *)
Fixpoint startswith (p s : string) : bool :=
  match p, s with
  | EmptyString, _ => true
  | String a p', String b s' => Ascii.eqb a b && startswith p' s'
  | String _ _, EmptyString => false
  end.

(** *** Hexadecimal forms *)

Definition hex_digit (n : N) : ascii :=
  match n with
  | 0 => "0" | 1 => "1" | 2 => "2" | 3 => "3" | 4 => "4" | 5 => "5"
  | 6 => "6" | 7 => "7" | 8 => "8" | 9 => "9" | 10 => "a" | 11 => "b"
  | 12 => "c" | 13 => "d" | 14 => "e" | _ => "f"
  end%N%char.

(** [bytes.hex()]: two lower-case digits per byte, no prefix. *)
Fixpoint bytes_hex (b : list byte) : string :=
  match b with
  | [] => EmptyString
  | x :: b' =>
      let n := Byte.to_N x in
      String (hex_digit (n / 16)%N) (String (hex_digit (n mod 16)%N) (bytes_hex b'))
  end.

(** [HexBytes.hex()]: the digits of [bytes.hex()] behind the prefix 0x.
    This is the override of hexbytes below 1.0, the range pinned by web3 6,
    whose names wallet.py uses ([rawTransaction], [geth_poa_middleware]). *)
Definition HexBytes_hex (b : list byte) : string := "0x" +:+ bytes_hex b.

(** [x.hex()] for [x] an instance of [bytes], by dynamic dispatch. *)
Definition hex (x : pyobj) : option string :=
  match x with
  | PyBytes b => Some (bytes_hex b)
  | PyHexBytes b => Some (HexBytes_hex b)
  | _ => None
  end.

(** *** Numbers returned by the balance queries

    [TrueDiv n d] is the [float] that Python's true division of the ints
    [n] and [d] yields; [FromWei n u] is the [Decimal] that web3's
    [from_wei] yields for [n] wei in a unit of [u] wei.  Both are kept
    symbolic: only whether a division was applied matters here. *)
Inductive number : Type :=
| Int (n : Z)
| TrueDiv (n d : Z)
| FromWei (n unit : Z).

Definition ether : Z := 10 ^ 18.

End Py.
Export Py.

(** ** Exceptions and results *)

Inductive exn : Type :=
| InvalidNetworkInfo (network : pyobj)
    (** [evm_wallet.exceptions.InvalidNetworkInfo], wallet.py *)
| TypeError_network (network : pyobj)
    (** [TypeError("Network information must be represented as ...")],
        _base_wallet.py *)
| TypeError_tx_hash (t : pytype)
    (** [TypeError(f"Invalid transaction hash type: {type(tx_hash)}")] *)
| ValueError_chain_id (chainlist_query : string)
    (** [ValueError('Chain id in network info must be equal to the chain.
        ...search={...}')], _base_wallet.py *)
| TypeError_cast (x : pyobj)
    (** an object used at a type its run-time shape does not have *)
| TypeError_multiple_values (kw : string)
    (** a keyword passed twice to a call *)
| KeyError (key : string)
| AttributeError (t : pytype) (attr : string)
| RuntimeError_running_loop
    (** [asyncio.run() cannot be called from a running event loop] *)
| TypeError_not_awaitable
    (** [object ... can't be used in 'await' expression] *)
| Web3Error (code : Z)
    (** anything raised behind the web3 / eth_account API *).

Inductive result (A : Type) : Type :=
| Ok (a : A)
| Raise (e : exn).
Arguments Ok {A} a.
Arguments Raise {A} e.

Definition result_bind {A B} (r : result A) (f : A → result B) : result B :=
  match r with
  | Ok a => f a
  | Raise e => Raise e
  end.

Declare Scope result_scope.
Delimit Scope result_scope with result.
Notation "x ← r ; k" := (result_bind r (λ x, k))
  (at level 20, r at level 100, k at level 200, only parsing) : result_scope.

(** [d[key]] on a dictionary. *)
Definition getitem {V} (d : gmap string V) (key : string) : result V :=
  match d !! key with
  | Some v => Ok v
  | None => Raise (KeyError key)
  end.

(** ** The world behind web3 *)

(** A [Web3] or [AsyncWeb3] object: how its provider was built, and for
    which endpoint. *)
Inductive client : Type := Web3 | AsyncWeb3.

Inductive transport : Type := HTTPProvider | WebsocketProvider | AsyncHTTPProvider.

Record web3 : Type := Connect {
  client_of : client;
  transport_of : transport;
  endpoint : scalar;
}.

(** A transaction-parameter dictionary. *)
Abbreviation TxParams := (gmap string pyobj).

(** The answers of the node and of the libraries, and the Unicode tables
    of the interpreter.  An address is the string web3 prints; a contract
    is the checksummed address it was loaded for. *)
Record World : Type := {
  str_case : Unicode;
  eth_chain_id : web3 → result Z;
  eth_get_transaction_count : web3 → string → result Z;
  eth_get_balance : web3 → string → result Z;
  eth_send_raw_transaction : web3 → list byte → result (list byte);
  sign_transaction : TxParams → string → result (list byte);
  Account_from_key : string → result string;
  to_checksum_address : string → result string;
  load_token_contract : web3 → pyobj → result string;
  balanceOf_call : web3 → string → string → result Z;
  decimals_call : web3 → string → result N;
}.

(** ** Methods as computations on the object

    [M S A] is a method body on an object of state [S] with a result in
    [A].  The boolean tells whether an asyncio event loop is running in the
    calling thread.  The state an exception leaves behind is the state at
    the [raise]. *)

Definition M (S A : Type) : Type := bool → S → result A * S.

Definition ret {S A} (a : A) : M S A := λ _ s, (Ok a, s).
Definition raise {S A} (e : exn) : M S A := λ _ s, (Raise e, s).
Definition bind {S A B} (m : M S A) (f : A → M S B) : M S B :=
  λ loop s, match m loop s with
            | (Ok a, s') => f a loop s'
            | (Raise e, s') => (Raise e, s')
            end.
Definition lift {S A} (r : result A) : M S A := λ _ s, (r, s).
Definition get {S} : M S S := λ _ s, (Ok s, s).
Definition modify {S} (f : S → S) : M S unit := λ _ s, (Ok tt, f s).

Declare Scope method_scope.
Delimit Scope method_scope with method.
Notation "x ← m ; k" := (bind m (λ x, k))
  (at level 20, m at level 100, k at level 200, only parsing) : method_scope.
Notation "m ;; k" := (bind m (λ _, k))
  (at level 100, k at level 200, only parsing, right associativity) : method_scope.

(** [async def]: calling the method makes a coroutine, whose body runs
    inside an event loop whenever it runs. *)
Definition async_def {S A} (body : M S A) : M S A := λ _ s, body true s.

(** [await coro] runs the coroutine to its result. *)
Definition await {S A} (coro : M S A) : M S A := coro.

(** [await] applied to the value a plain (not [async]) call returned: the
    call is made, and its value is then refused. *)
Definition await_plain {S A B} (call : M S A) : M S B :=
  bind call (λ _, raise TypeError_not_awaitable).

(** [asyncio.run(coro)] refuses to start under a running event loop;
    otherwise it runs the coroutine in a fresh loop until it completes. *)
Definition asyncio_run {S A} (coro : M S A) : M S A :=
  λ loop s, if loop then (Raise RuntimeError_running_loop, s) else coro loop s.

(** ** Network names and network information *)

(** A network-information dictionary. *)
Abbreviation NetworkInfo := (gmap string scalar).

(** Modelled from the spec: the keys of the [NetworkInfo] TypedDict of
    evm_wallet/types.py, which is not among the sources.  The spec lists a
    network info as name, chain id, RPC endpoint, native token symbol and
    explorer URL; the key names are the ones the sources subscript with. *)
Definition NetworkInfo_keys : list string :=
  ["network"; "chain_id"; "rpc"; "token"; "explorer"].

(** Modelled from the spec: [_in_literal] of evm_wallet/utils.py, which is
    not among the sources.  It tells whether the argument is one of the
    names of a [Literal] type of strings. *)
Definition _in_literal (value : pyobj) (literal : list string) : bool :=
  match value with
  | PyScalar (PyStr name) => bool_decide (name ∈ literal)
  | _ => false
  end.

(** Modelled from the spec: [_has_keys] of evm_wallet/utils.py, which is
    not among the sources.  It tells whether the argument is a dictionary
    that has every key of the TypedDict. *)
Definition _has_keys (value : pyobj) (keys : list string) : bool :=
  match value with
  | PyDict d => forallb (λ k, bool_decide (is_Some (d !! k))) keys
  | _ => false
  end.

(** [typing.cast] does nothing at run time.  In the embedding it projects
    the object onto the shape the code goes on to use it at. *)
Definition cast_str (value : pyobj) : result string :=
  match value with
  | PyScalar (PyStr name) => Ok name
  | _ => Raise (TypeError_cast value)
  end.

Definition cast_Network : pyobj → result string := cast_str.

Definition cast_NetworkInfo (value : pyobj) : result NetworkInfo :=
  match value with
  | PyDict d => Ok d
  | _ => Raise (TypeError_cast value)
  end.

(** [NetworkInfo(network=network, **entry)]: a TypedDict constructor builds
    a plain dictionary from its keyword arguments. *)
Definition NetworkInfo_call (network : string) (entry : NetworkInfo) : result NetworkInfo :=
  match entry !! "network" with
  | Some _ => Raise (TypeError_multiple_values "network")
  | None => Ok (<["network" := PyStr network]> entry)
  end.

(** An entry of the network table, with the key the source gives the
    chain id. *)
Definition entry (chain_key : string) (chain : Z) (rpc token explorer : string) : NetworkInfo :=
  <[chain_key := PyInt chain]>
    (<["rpc" := PyStr rpc]> (<["token" := PyStr token]> {["explorer" := PyStr explorer]})).

(** The address [ZERO_ADDRESS] of both sources: checksumming the zero
    address changes nothing, it has no letter among its digits. *)
Definition ZERO_ADDRESS : string := "0x0000000000000000000000000000000000000000".

(** Attribute access on objects that may lack the attribute. *)

Definition str_startswith (x : scalar) (prefix : string) : result bool :=
  match x with
  | PyStr s => Ok (startswith prefix s)
  | _ => Raise (AttributeError (type_of x) "startswith")
  end.

Definition str_lower (U : Unicode) (x : scalar) : result string :=
  match x with
  | PyStr s => Ok (lower U s)
  | _ => Raise (AttributeError (type_of x) "lower")
  end.

Definition upper_byte (b : byte) : byte := byte_of_ascii (upper_ascii (ascii_of_byte b)).
Definition lower_byte (b : byte) : byte := byte_of_ascii (lower_ascii (ascii_of_byte b)).

(** [x.upper()] and [x.lower()]: [str] and [bytes] have them, and on a
    [HexBytes] they are the ones inherited from [bytes]. *)
Definition upper_method (U : Unicode) (x : pyobj) : result pyobj :=
  match x with
  | PyScalar (PyStr s) => Ok (PyScalar (PyStr (upper U s)))
  | PyBytes b | PyHexBytes b => Ok (PyBytes (map upper_byte b))
  | _ => Raise (AttributeError (type_of x) "upper")
  end.

Definition lower_method (U : Unicode) (x : pyobj) : result pyobj :=
  match x with
  | PyScalar (PyStr s) => Ok (PyScalar (PyStr (lower U s)))
  | PyBytes b | PyHexBytes b => Ok (PyBytes (map lower_byte b))
  | _ => Raise (AttributeError (type_of x) "lower")
  end.

(** [x.hex()]. *)
Definition hex_method (x : pyobj) : result string :=
  match hex x with
  | Some h => Ok h
  | None => Raise (AttributeError (type_of x) "hex")
  end.

(** [x == v] for a scalar [v]: an object that is not a scalar (a [bytes],
    a [dict]) equals none. *)
Definition py_eqb (x : pyobj) (v : scalar) : bool :=
  match x with
  | PyScalar u => scalar_eqb u v
  | _ => false
  end.

(** [x is not None]. *)
Definition is_not_None (v : scalar) : bool :=
  match v with
  | PyNone => false
  | _ => true
  end.

(** ** _base_wallet.py: class [_BaseWallet] *)

Module BaseWallet.

(** [__network_map], in the order of the source.  Four entries spell the
    chain-id key [chaind_id]. *)
Definition network_table : list (string * NetworkInfo) :=
  [ ("Arbitrum Goerli", entry "chain_id" 421613 "wss://arbitrum-goerli-rpc.publicnode.com" "ETH" "https://goerli.arbiscan.io");
    ("Arbitrum Sepolia", entry "chain_id" 421614 "wss://arbitrum-sepolia-rpc.publicnode.com" "ETH" "https://sepolia.arbiscan.io");
    ("Arbitrum", entry "chain_id" 42161 "wss://arbitrum-one-rpc.publicnode.com" "ETH" "https://arbiscan.io");
    ("Avalanche", entry "chain_id" 43114 "wss://avalanche-c-chain-rpc.publicnode.com" "AVAX" "https://snowtrace.io/");
    ("Base", entry "chain_id" 8453 "wss://base-rpc.publicnode.com" "ETH" "https://basescan.org/");
    ("Base Goerli", entry "chain_id" 84531 "https://base-goerli.public.blastapi.io" "ETH" "https://goerli.basescan.org/");
    ("Base Sepolia", entry "chain_id" 84532 "wss://base-sepolia-rpc.publicnode.com" "ETH" "https://sepolia.basescan.org/");
    ("BSC", entry "chain_id" 56 "wss://bsc-rpc.publicnode.com" "BNB" "https://bscscan.com");
    ("BSC Testnet", entry "chain_id" 97 "wss://bsc-testnet-rpc.publicnode.com" "BNB" "https://testnet.bscscan.com");
    ("Ethereum", entry "chain_id" 1 "wss://ethereum-rpc.publicnode.com" "ETH" "https://etherscan.io");
    ("Fantom", entry "chain_id" 250 "wss://fantom-rpc.publicnode.com" "FTM" "https://ftmscan.com/");
    ("Fantom Testnet", entry "chain_id" 4002 "wss://fantom-testnet-rpc.publicnode.com" "FTM" "https://testnet.ftmscan.com/");
    ("Fuji", entry "chain_id" 43113 "wss://avalanche-fuji-c-chain-rpc.publicnode.com" "AVAX" "https://testnet.snowtrace.io");
    ("Goerli", entry "chain_id" 5 "wss://goerli.gateway.tenderly.co" "ETH" "https://goerli.etherscan.io");
    ("Linea", entry "chain_id" 59144 "wss://linea.drpc.org" "ETH" "https://lineascan.build/");
    ("Linea Goerli", entry "chain_id" 59140 "wss://linea-goerli.drpc.org" "ETH" "https://goerli.lineascan.build/");
    ("Mumbai", entry "chain_id" 80001 "wss://polygon-mumbai-bor-rpc.publicnode.com" "MATIC" "https://mumbai.polygonscan.com/");
    ("opBNB", entry "chaind_id" 204 "wss://opbnb-rpc.publicnode.com" "BNB" "https://opbnb.bscscan.com/");
    ("opBNB Testnet", entry "chaind_id" 5611 "wss://opbnb-testnet-rpc.publicnode.com" "BNB" "https://opbnb-testnet.bscscan.com");
    ("Optimism", entry "chain_id" 10 "wss://optimism-rpc.publicnode.com" "ETH" "https://optimistic.etherscan.io");
    ("Optimism Sepolia", entry "chaind_id" 11155420 "wss://optimism-sepolia-rpc.publicnode.com" "ETH" "https://sepolia-optimism.etherscan.io/");
    ("Optimism Goerli", entry "chain_id" 420 "wss://optimism-testnet.drpc.org" "ETH" "https://goerli-optimism.etherscan.io");
    ("Polygon", entry "chain_id" 137 "wss://polygon-bor-rpc.publicnode.com" "MATIC" "https://polygonscan.com");
    ("Sepolia", entry "chain_id" 11155111 "wss://ethereum-sepolia-rpc.publicnode.com" "ETH" "https://sepolia.etherscan.io");
    ("Scroll", entry "chaind_id" 534352 "wss://scroll.drpc.org" "ETH" "https://scrollscan.com");
    ("zkSync", entry "chain_id" 324 "wss://zksync.drpc.org" "ETH" "https://explorer.zksync.io") ].

Definition __network_map : gmap string NetworkInfo := list_to_map network_table.

(** Modelled from the spec: the [Network] literal type of
    evm_wallet/types.py, which is not among the sources.  The spec calls a
    name recognized when it is a name of the static table. *)
Definition Network : list string := network_table.*1.

(** The attributes [__init__] sets. *)
Record t : Type := Build {
  _provider : web3;
  private_key : string;
  account : string;
  public_key : string;
  nonce : Z;
  network : NetworkInfo;
}.

Definition set_provider (p : web3) (w : t) : t :=
  Build p (private_key w) (account w) (public_key w) (nonce w) (network w).
Definition set_nonce (n : Z) (w : t) : t :=
  Build (_provider w) (private_key w) (account w) (public_key w) n (network w).
Definition set_network (i : NetworkInfo) (w : t) : t :=
  Build (_provider w) (private_key w) (account w) (public_key w) (nonce w) i.

Section methods.
Context (W : World).

Local Open Scope result_scope.

(** [__validate_network], _base_wallet.py lines 304-318. *)
Definition __validate_network (network : pyobj) : result NetworkInfo :=
  if _in_literal network Network then
    network ← cast_Network network;
    entry ← getitem __network_map network;
    NetworkInfo_call network entry
  else if _has_keys network NetworkInfo_keys then
    cast_NetworkInfo network
  else
    Raise (TypeError_network network).

(** [__validate_chain_id], lines 320-329.  The assignment in the [else]
    branch writes into the dictionary it was given; the updated dictionary
    is the one returned. *)
Definition __validate_chain_id (network_info : NetworkInfo) (provider : web3)
  : result NetworkInfo :=
  chain_id ← eth_chain_id W provider;
  declared ← getitem network_info "chain_id";
  if is_not_None declared && negb (scalar_eqb (PyInt chain_id) declared) then
    network ← getitem network_info "network";
    query ← str_lower (str_case W) network;
    Raise (ValueError_chain_id query)
  else
    Ok (<["chain_id" := PyInt chain_id]> network_info).

(** [__init__], lines 179-210. *)
Definition __init__ (private_key : string) (network : pyobj) (is_async : bool) : result t :=
  network_info ← __validate_network network;
  rpc ← getitem network_info "rpc";
  is_websocket_rpc ← str_startswith rpc "wss://";
  let temp_provider :=
    if is_websocket_rpc : bool then Connect Web3 WebsocketProvider rpc
    else Connect Web3 HTTPProvider rpc in
  let _provider :=
    if is_async : bool then
      if is_websocket_rpc then Connect AsyncWeb3 WebsocketProvider rpc
      else Connect AsyncWeb3 HTTPProvider rpc
    else temp_provider in
  network_info ← __validate_chain_id network_info temp_provider;
  account ← Account_from_key W private_key;
  public_key ← to_checksum_address W account;
  nonce ← eth_get_transaction_count W temp_provider public_key;
  Ok (Build _provider private_key account public_key nonce network_info).

Local Open Scope method_scope.

(** The [network] setter, lines 239-253. *)
Definition network_setter (value : pyobj) : M t unit :=
  network_info ← lift (__validate_network value);
  rpc ← lift (getitem network_info "rpc");
  modify (set_network network_info);;
  modify (set_provider (Connect AsyncWeb3 AsyncHTTPProvider rpc));;
  let temp_provider := Connect Web3 HTTPProvider rpc in
  self ← get;
  nonce ← lift (eth_get_transaction_count W temp_provider (public_key self));
  modify (set_nonce nonce).

(** [is_native_token], lines 287-302.  The value of [token.hex()] is
    dropped, as in the source. *)
Definition is_native_token (token : pyobj) : M t bool :=
  self ← get;
  let network := network self in
  native_token ← lift (getitem network "token");
  lift (if isinstance_bytes token then _ ← hex_method token; Ok tt else Ok tt)%result;;
  upper ← lift (upper_method (str_case W) token);
  if py_eqb upper native_token then ret true else
  lower ← lift (lower_method (str_case W) token);
  if py_eqb lower native_token then ret true else
  ret (py_eqb token (PyStr ZERO_ADDRESS)).

(** [get_explorer_url], lines 350-361. *)
Definition get_explorer_url (tx_hash : pyobj) : M t string :=
  tx_hash ← lift (if isinstance_bytes tx_hash then hex_method tx_hash
                  else if negb (isinstance_str tx_hash) then
                    Raise (TypeError_tx_hash (type_of tx_hash))
                  else cast_str tx_hash);
  self ← get;
  explorer ← lift (getitem (network self) "explorer");
  ret (str explorer +:+ "/tx/" +:+ tx_hash).

End methods.

End BaseWallet.

(** ** wallet.py: classes [AsyncWallet] and [Wallet(AsyncWallet)] *)

Module WalletPy.

(** The class an object was created as: it decides which method a call
    through [self] reaches. *)
Inductive wallet_class : Type := AsyncWallet_cls | Wallet_cls.

(** The attributes [AsyncWallet.__init__] sets. *)
Record t : Type := Build {
  class_of : wallet_class;
  network : NetworkInfo;
  provider : web3;
  private_key : string;
  account : string;
  public_key : string;
  nonce : Z;
  chain_id : Z;
}.

Definition set_network (i : NetworkInfo) (w : t) : t :=
  Build (class_of w) i (provider w) (private_key w) (account w) (public_key w)
        (nonce w) (chain_id w).
Definition set_provider (p : web3) (w : t) : t :=
  Build (class_of w) (network w) p (private_key w) (account w) (public_key w)
        (nonce w) (chain_id w).
Definition set_nonce (n : Z) (w : t) : t :=
  Build (class_of w) (network w) (provider w) (private_key w) (account w)
        (public_key w) n (chain_id w).
Definition set_chain_id (c : Z) (w : t) : t :=
  Build (class_of w) (network w) (provider w) (private_key w) (account w)
        (public_key w) (nonce w) c.

Section methods.
(** [NETWORK_MAP] of evm_wallet/globals.py, which is not among the sources:
    the methods are embedded for every table. *)
Context (NETWORK_MAP : gmap string NetworkInfo).
Context (W : World).

(** Modelled from the spec: the [Network] literal type of
    evm_wallet/types.py, which is not among the sources.  The spec calls a
    name recognized when it is a name of the static table. *)
Definition Network : list string := elements (dom NETWORK_MAP).

Local Open Scope result_scope.

(** [AsyncWallet.__validate_network], wallet.py lines 126-135. *)
Definition __validate_network (network : option pyobj) : result NetworkInfo :=
  let network := default (PyScalar (PyStr "Ethereum")) network in
  if _in_literal network Network then
    network ← cast_Network network;
    entry ← getitem NETWORK_MAP network;
    network_info ← NetworkInfo_call network entry;
    Ok network_info
  else if _has_keys network NetworkInfo_keys then
    cast_NetworkInfo network
  else
    Raise (InvalidNetworkInfo network).

(** [AsyncWallet.__init__], lines 22-43; [Wallet.__init__], lines 356-366,
    only calls it.  [cls] is the class being instantiated. *)
Definition __init__ (cls : wallet_class) (private_key : string) (network : option pyobj)
  : result t :=
  let network := default (PyScalar (PyStr "Ethereum")) network in
  network_info ← __validate_network (Some network);
  rpc ← getitem network_info "rpc";
  let provider := Connect AsyncWeb3 AsyncHTTPProvider rpc in
  let temp_provider := Connect Web3 HTTPProvider rpc in
  account ← Account_from_key W private_key;
  public_key ← to_checksum_address W account;
  nonce ← eth_get_transaction_count W temp_provider public_key;
  chain_id ← eth_chain_id W temp_provider;
  Ok (Build cls network_info provider private_key account public_key nonce chain_id).

Local Open Scope method_scope.

(** The [network] setter, lines 57-66. *)
Definition network_setter (value : pyobj) : M t unit :=
  network_info ← lift (__validate_network (Some value));
  rpc ← lift (getitem network_info "rpc");
  modify (set_network network_info);;
  modify (set_provider (Connect AsyncWeb3 AsyncHTTPProvider rpc));;
  let temp_provider := Connect Web3 HTTPProvider rpc in
  self ← get;
  nonce ← lift (eth_get_transaction_count W temp_provider (public_key self));
  modify (set_nonce nonce);;
  chain_id ← lift (eth_chain_id W temp_provider);
  modify (set_chain_id chain_id).

(** [AsyncWallet.is_native_token], lines 96-111.  The value of
    [token.hex()] is dropped, as in the source. *)
Definition is_native_token (token : pyobj) : M t bool :=
  self ← get;
  let network := network self in
  native_token ← lift (getitem network "token");
  lift (if isinstance_HexBytes token then _ ← hex_method token; Ok tt else Ok tt)%result;;
  upper ← lift (upper_method (str_case W) token);
  if py_eqb upper native_token then ret true else
  lower ← lift (lower_method (str_case W) token);
  if py_eqb lower native_token then ret true else
  ret (py_eqb token (PyStr ZERO_ADDRESS)).

(** [AsyncWallet.get_balance], lines 137-146. *)
Definition AsyncWallet_get_balance (to_wei : option bool) : M t number :=
  let to_wei := default false to_wei in
  async_def (
    self ← get;
    let provider := provider self in
    balance ← await (lift (eth_get_balance W provider (public_key self)));
    ret (if to_wei then Int balance else FromWei balance ether)).

(** [AsyncWallet.transact], lines 251-262. *)
Definition AsyncWallet_transact (tx_params : TxParams) : M t (list byte) :=
  async_def (
    self ← get;
    let provider := provider self in
    signed_transaction ← lift (sign_transaction W tx_params (private_key self));
    tx_hash ← await (lift (eth_send_raw_transaction W provider signed_transaction));
    modify (λ self, set_nonce (nonce self + 1) self);;
    ret tx_hash).

(** [AsyncWallet.get_decimals], lines 302-310. *)
Definition AsyncWallet_get_decimals (token : pyobj) : M t N :=
  async_def (
    self ← get;
    token ← lift (load_token_contract W (provider self) token);
    decimals ← await (lift (decimals_call W (provider self) token));
    ret decimals).

(** [Wallet.get_decimals], lines 491-498. *)
Definition Wallet_get_decimals (token : pyobj) : M t N :=
  let async_method := AsyncWallet_get_decimals in
  asyncio_run (async_method token).

(** [await self.get_decimals(token)] in a method of [AsyncWallet]: on an
    [AsyncWallet] the call makes a coroutine; on a [Wallet] it reaches the
    plain method that overrides it. *)
Definition await_self_get_decimals (token : pyobj) : M t N :=
  self ← get;
  match class_of self with
  | AsyncWallet_cls => await (AsyncWallet_get_decimals token)
  | Wallet_cls => await_plain (Wallet_get_decimals token)
  end.

(** [AsyncWallet.get_balance_of], lines 286-300. *)
Definition AsyncWallet_get_balance_of (token : pyobj) (convert : option bool) : M t number :=
  let convert := default true convert in
  async_def (
    self ← get;
    token_contract ← lift (load_token_contract W (provider self) token);
    balance ← await (lift (balanceOf_call W (provider self) token_contract (public_key self)));
    if convert then
      decimals ← await_self_get_decimals token;
      ret (TrueDiv balance (10 ^ Z.of_N decimals))
    else
      ret (Int balance)).

(** [AsyncWallet.get_explorer_url], lines 336-347; [Wallet] inherits it. *)
Definition get_explorer_url (transaction_hash : pyobj) : M t string :=
  transaction_hash ← lift (if isinstance_HexBytes transaction_hash then
                             hex_method transaction_hash
                           else
                             Raise (TypeError_tx_hash (type_of transaction_hash)));
  self ← get;
  explorer ← lift (getitem (network self) "explorer");
  ret (str explorer +:+ "/tx/" +:+ transaction_hash).

(** [Wallet.get_balance], lines 368-374: the coroutine is made without an
    argument. *)
Definition Wallet_get_balance (to_wei : option bool) : M t number :=
  let to_wei := default false to_wei in
  let async_method := AsyncWallet_get_balance in
  asyncio_run (async_method None).

(** [Wallet.transact], lines 452-459. *)
Definition Wallet_transact (tx_params : TxParams) : M t (list byte) :=
  let async_method := AsyncWallet_transact in
  asyncio_run (async_method tx_params).

(** [Wallet.get_balance_of], lines 481-489: the coroutine is made from the
    token alone. *)
Definition Wallet_get_balance_of (token : pyobj) (convert : option bool) : M t number :=
  let convert := default false convert in
  let async_method := AsyncWallet_get_balance_of in
  asyncio_run (async_method token None).

End methods.

End WalletPy.

(** ** wallet.py: building and sending transactions, history, [create] *)

Module Transactions.
Import WalletPy.

(** [bool(x)], the truth value an [if] gives an object. *)
Definition truthy (x : pyobj) : bool :=
  match x with
  | PyScalar PyNone => false
  | PyScalar (PyBool b) => b
  | PyScalar (PyInt z) => negb (Z.eqb z 0)
  | PyScalar (PyStr s) => negb (String.eqb s "")
  | PyBytes b | PyHexBytes b => negb (bool_decide (b = []))
  | PyDict d => negb (bool_decide (d = ∅))
  end.

(** The truth value of an [Optional[int]] argument: [None] and [0] are
    false. *)
Definition truthy_int (x : option Z) : bool :=
  match x with
  | Some z => negb (Z.eqb z 0)
  | None => false
  end.

(** [del d[key]]. *)
Definition delitem {V} (d : gmap string V) (key : string) : result (gmap string V) :=
  match d !! key with
  | Some _ => Ok (delete key d)
  | None => Raise (KeyError key)
  end.

(** A contract function called with arguments, not yet built: what
    [token.functions.approve(spender, amount)] returns. *)
Record ContractFunction : Type := Closure {
  fn_contract : string;
  fn_name : string;
  fn_args : list pyobj;
}.

(** A transaction as the node reports it. *)
Abbreviation TxData := (gmap string scalar).

(** The further answers of the node and of the libraries that these
    methods ask for.  [eth_get_block] gives the [transactions] of the block
    fetched with full transaction objects. *)
Record Node : Type := {
  eth_gas_price : web3 → result Z;
  eth_estimate_gas : web3 → TxParams → result Z;
  provider_to_checksum_address : pyobj → result string;
  functions_call : string → string → list pyobj → result ContractFunction;
  build_transaction : ContractFunction → TxParams → result TxParams;
  eth_block_number : web3 → result Z;
  eth_get_block : web3 → Z → result (list TxData);
  Account_create_key : result string;
}.

Section methods.
Context (NETWORK_MAP : gmap string NetworkInfo).
Context (W : World) (N : Node).

Local Open Scope method_scope.

(** [AsyncWallet.build_transaction_params], wallet.py lines 215-249. *)
Definition AsyncWallet_build_transaction_params
    (value : Z) (recipient raw_data : pyobj) (gas gas_price : option Z) : M t TxParams :=
  async_def (
    self ← get;
    let provider := provider self in
    gasPrice ← (if truthy_int gas_price then ret (default 0 gas_price)
                else await (lift (eth_gas_price N provider)));
    let tx_params : TxParams :=
      <["gasPrice" := PyScalar (PyInt gasPrice)]>
      (<["gas" := PyScalar (PyInt (if truthy_int gas then default 0 gas else 250000))]>
      (<["value" := PyScalar (PyInt value)]>
      (<["nonce" := PyScalar (PyInt (nonce self))]>
      (<["chainId" := PyScalar (PyInt (chain_id self))]>
      {["from" := PyScalar (PyStr (public_key self))]})))) in
    tx_params ← (if truthy recipient then
                   to ← lift (provider_to_checksum_address N recipient);
                   ret (<["to" := PyScalar (PyStr to)]> tx_params)
                 else ret tx_params);
    let tx_params := if truthy raw_data then <["data" := raw_data]> tx_params
                     else tx_params in
    ret tx_params).

(** [Wallet.build_transaction_params], lines 432-450. *)
Definition Wallet_build_transaction_params
    (value : Z) (recipient raw_data : pyobj) (gas gas_price : option Z) : M t TxParams :=
  let async_method := AsyncWallet_build_transaction_params in
  asyncio_run (async_method value recipient raw_data gas gas_price).

(** [AsyncWallet.estimate_gas], lines 148-156. *)
Definition AsyncWallet_estimate_gas (tx_params : TxParams) : M t Z :=
  async_def (
    self ← get;
    let provider := provider self in
    gas ← await (lift (eth_estimate_gas N provider tx_params));
    ret gas).

(** [Wallet.estimate_gas], lines 376-383. *)
Definition Wallet_estimate_gas (tx_params : TxParams) : M t Z :=
  let async_method := AsyncWallet_estimate_gas in
  asyncio_run (async_method tx_params).

(** The awaited calls through [self] in [AsyncWallet.build_and_transact]:
    on an [AsyncWallet] each makes a coroutine, on a [Wallet] each reaches
    the plain method that overrides it. *)
Definition await_self_build_transaction_params
    (value : Z) (gas gas_price : option Z) : M t TxParams :=
  self ← get;
  match class_of self with
  | AsyncWallet_cls =>
      await (AsyncWallet_build_transaction_params value PyNone PyNone gas gas_price)
  | Wallet_cls =>
      await_plain (Wallet_build_transaction_params value PyNone PyNone gas gas_price)
  end.

Definition await_self_estimate_gas (tx_params : TxParams) : M t Z :=
  self ← get;
  match class_of self with
  | AsyncWallet_cls => await (AsyncWallet_estimate_gas tx_params)
  | Wallet_cls => await_plain (Wallet_estimate_gas tx_params)
  end.

Definition await_self_transact (tx_params : TxParams) : M t (list byte) :=
  self ← get;
  match class_of self with
  | AsyncWallet_cls => await (AsyncWallet_transact W tx_params)
  | Wallet_cls => await_plain (Wallet_transact W tx_params)
  end.

(** [AsyncWallet.build_and_transact], lines 158-194. *)
Definition AsyncWallet_build_and_transact
    (closure : ContractFunction) (value : Z) (gas gas_price : option Z)
  : M t (list byte) :=
  async_def (
    tx_params ← await_self_build_transaction_params value gas gas_price;
    tx_params ← await (lift (build_transaction N closure tx_params));
    tx_params ← (if negb (truthy_int gas) then
                   tx_params ← lift (delitem tx_params "gas");
                   gas ← await_self_estimate_gas tx_params;
                   ret (<["gas" := PyScalar (PyInt gas)]> tx_params)
                 else ret tx_params);
    await_self_transact tx_params).

(** [Wallet.build_and_transact], lines 385-414. *)
Definition Wallet_build_and_transact
    (closure : ContractFunction) (value : Z) (gas gas_price : option Z)
  : M t (list byte) :=
  let async_method := AsyncWallet_build_and_transact in
  asyncio_run (async_method closure value gas gas_price).

(** [await self.build_and_transact(...)] in [approve] and [transfer]. *)
Definition await_self_build_and_transact
    (closure : ContractFunction) (value : Z) (gas gas_price : option Z)
  : M t (list byte) :=
  self ← get;
  match class_of self with
  | AsyncWallet_cls => await (AsyncWallet_build_and_transact closure value gas gas_price)
  | Wallet_cls => await_plain (Wallet_build_and_transact closure value gas gas_price)
  end.

(** [AsyncWallet.approve], lines 196-213. *)
Definition AsyncWallet_approve (token contract_address : pyobj) (token_amount : Z)
  : M t (list byte) :=
  async_def (
    self ← get;
    token ← lift (load_token_contract W (provider self) token);
    contract_address ← lift (provider_to_checksum_address N contract_address);
    closure ← lift (functions_call N token "approve"
                      [PyScalar (PyStr contract_address); PyScalar (PyInt token_amount)]);
    await_self_build_and_transact closure 0 None None).

(** [Wallet.approve], lines 416-430. *)
Definition Wallet_approve (token contract_address : pyobj) (token_amount : Z)
  : M t (list byte) :=
  let async_method := AsyncWallet_approve in
  asyncio_run (async_method token contract_address token_amount).

(** [AsyncWallet.transfer], lines 264-284.  The source awaits the contract
    function itself, which is no coroutine (the docstring of
    [build_and_transact]: the closure has to be not built or awaited). *)
Definition AsyncWallet_transfer
    (token recipient : pyobj) (token_amount : Z) (gas gas_price : option Z)
  : M t (list byte) :=
  async_def (
    self ← get;
    token_contract ← lift (load_token_contract W (provider self) token);
    recipient ← lift (provider_to_checksum_address N recipient);
    closure ← await_plain (lift (functions_call N token_contract "transfer"
                             [PyScalar (PyStr recipient); PyScalar (PyInt token_amount)]));
    await_self_build_and_transact closure 0 gas gas_price).

(** [Wallet.transfer], lines 461-479. *)
Definition Wallet_transfer
    (token recipient : pyobj) (token_amount : Z) (gas gas_price : option Z)
  : M t (list byte) :=
  let async_method := AsyncWallet_transfer in
  asyncio_run (async_method token recipient token_amount gas gas_price).

Local Open Scope result_scope.

(** The test of the inner loop of [get_transactions], line 331:
    [public_key.lower() in [tx['from'].lower(), tx['to'].lower()]]. *)
Definition involves (public_key : string) (tx : TxData) : result bool :=
  let wanted := lower (str_case W) public_key in
  sender ← getitem tx "from";
  sender ← str_lower (str_case W) sender;
  receiver ← getitem tx "to";
  receiver ← str_lower (str_case W) receiver;
  Ok (String.eqb wanted sender || String.eqb wanted receiver).

(** The inner loop, lines 330-332, over the block's transactions already
    reversed. *)
Fixpoint scan_block (public_key : string) (txs transactions : list TxData)
  : result (list TxData) :=
  match txs with
  | [] => Ok transactions
  | tx :: txs =>
      hit ← involves public_key tx;
      scan_block public_key txs (if hit : bool then transactions ++ [tx] else transactions)
  end.

(** The outer loop, lines 327-332: [count] blocks are left to scan, the
    next one is block [count - 1]. *)
Fixpoint scan_blocks (provider : web3) (public_key : string) (count : nat)
    (transactions : list TxData) : result (list TxData) :=
  match count with
  | O => Ok transactions
  | S block =>
      block_txs ← eth_get_block N provider (Z.of_nat block);
      transactions ← scan_block public_key (rev block_txs) transactions;
      scan_blocks provider public_key block transactions
  end.

(** [AsyncWallet.create], lines 113-124.  A key is opaque to the wallet;
    the embedding keeps it as a string, as [__init__] does. *)
Definition create (cls : wallet_class) (network : option pyobj) : result t :=
  let network := default (PyScalar (PyStr "Ethereum")) network in
  network ← __validate_network NETWORK_MAP (Some network);
  private_key ← Account_create_key N;
  __init__ NETWORK_MAP W cls private_key (Some (PyDict network)).

Local Open Scope method_scope.

(** [AsyncWallet.get_transactions], lines 312-334; a plain method, which
    [Wallet] inherits.  [range(end_block, start_block - 1, -1)] runs over
    [end_block + 1] blocks, none when [end_block] is negative. *)
Definition get_transactions : M t (list TxData) :=
  self ← get;
  rpc ← lift (getitem (network self) "rpc");
  let provider := Connect Web3 HTTPProvider rpc in
  block_number ← lift (eth_block_number N provider);
  let start_block := 0 in
  let end_block := block_number in
  let public_key := public_key self in
  lift (scan_blocks provider public_key (Z.to_nat (end_block - (start_block - 1))) []).

End methods.

End Transactions.

(** ** _base_wallet.py: the cached [_load_token_contract] *)

Module TokenContracts.

(** An [AnyAddress] argument: a string or a bytes object. *)
Inductive AnyAddress : Type :=
| AddrStr (s : string)
| AddrBytes (b : list byte)
| AddrHexBytes (b : list byte).

#[global] Instance byte_eq_decision : EqDecision byte := Byte.byte_eq_dec.

(** [a == b] on addresses, which is what the cache compares keys with: a
    [HexBytes] equals the [bytes] of the same content, a string equals no
    bytes object. *)
Definition address_eqb (a b : AnyAddress) : bool :=
  match a, b with
  | AddrStr x, AddrStr y => String.eqb x y
  | (AddrBytes x | AddrHexBytes x), (AddrBytes y | AddrHexBytes y) => bool_decide (x = y)
  | _, _ => false
  end.

(** A contract object: the provider, the address and the ABI it was made
    from.  The ABI is the content of the bundled file erc20.abi. *)
Record Contract : Type := {
  contract_provider : web3;
  contract_address : string;
  contract_abi : string;
}.

(** The key of a cache entry, [(self, address)]: the object by identity,
    the address by equality. *)
Definition key : Type := nat * AnyAddress.

Definition key_eqb (k1 k2 : key) : bool :=
  Nat.eqb k1.1 k2.1 && address_eqb k1.2 k2.2.

(** The cache of [lru_cache(maxsize=6)], most recently used entry first.
    It belongs to the function, so all wallet objects share it. *)
Definition cache : Type := list (key * Contract).

Definition maxsize : nat := 6.

(** The entry of a key, taken out of the cache. *)
Fixpoint cache_take (k : key) (c : cache) : option ((key * Contract) * cache) :=
  match c with
  | [] => None
  | e :: c =>
      if key_eqb e.1 k then Some (e, c)
      else match cache_take k c with
           | Some (hit, rest) => Some (hit, e :: rest)
           | None => None
           end
  end.

(** A new entry goes to the front; a full cache first drops its least
    recently used entry, the last one. *)
Definition cache_add (k : key) (v : Contract) (c : cache) : cache :=
  (k, v) :: (if (maxsize <=? length c)%nat then removelast c else c).

(** The state the method runs on: the attributes of [self] and the cache. *)
Record state : Type := State {
  self_of : BaseWallet.t;
  cache_of : cache;
}.

Section methods.
Context (W : World).
(** [_get_erc20_abi], lines 331-337: the parsed content of erc20.abi, or
    the exception that opening or parsing the file raises.  Its own cache
    only spares reading the file again. *)
Context (_get_erc20_abi : result string).

Local Open Scope method_scope.

(** The body of [_load_token_contract], _base_wallet.py lines 341-348. *)
Definition load_token_contract_body (address : AnyAddress) : M state Contract :=
  let address :=
    match address with
    | AddrStr s => s
    | AddrBytes b => bytes_hex b
    | AddrHexBytes b => HexBytes_hex b
    end in
  s ← get;
  let provider := BaseWallet._provider (self_of s) in
  address ← lift (to_checksum_address W address);
  abi ← lift _get_erc20_abi;
  let contract :=
    {| contract_provider := provider; contract_address := address; contract_abi := abi |} in
  ret contract.

(** [_load_token_contract] under [lru_cache(maxsize=6)], lines 339-348, on
    the object of identity [self]: a hit returns the cached contract and
    makes its entry the most recent; a miss runs the body and caches its
    result; an exception caches nothing. *)
Definition _load_token_contract (self : nat) (address : AnyAddress) : M state Contract :=
  s ← get;
  let k := (self, address) in
  match cache_take k (cache_of s) with
  | Some (hit, rest) =>
      modify (λ s, State (self_of s) (hit :: rest));;
      ret hit.2
  | None =>
      contract ← load_token_contract_body address;
      modify (λ s, State (self_of s) (cache_add k contract (cache_of s)));;
      ret contract
  end.

(** The [network] setter of [_BaseWallet], run on the object inside the
    state: it does not touch the cache. *)
Definition network_setter (value : pyobj) : M state unit :=
  λ loop s,
    let (r, self') := BaseWallet.network_setter W value loop (self_of s) in
    (r, State self' (cache_of s)).

End methods.

End TokenContracts.

(** ** A mocked world, for the concrete runs *)

Module Mock.

Definition address : string := "0xAb5801a7D398351b8bE11C439e05C5B3259aeC9B".
Definition token_address : string := "0xdAC17F958D2ee523a2206206994597C13D831ec7".

Definition polygon_rpc : string := "wss://polygon-bor-rpc.publicnode.com".

(** A node on chain [live_chain_id] where the account has sent 7
    transactions (3 as seen from the Polygon endpoint), holds 2 ether and
    1000 units of a token of 3 decimals.
    The signer refuses an empty parameter dictionary, and the node refuses
    a transaction that carries no nonce. *)
(** The strings of the mocked runs are ASCII texts; other texts are left
    as they are. *)
Definition identity_case : Unicode := {|
  unicode_upper := λ s, s;
  unicode_lower := λ s, s;
|}.

Definition world (live_chain_id : Z) : World := {|
  str_case := identity_case;
  eth_chain_id := λ _, Ok live_chain_id;
  eth_get_transaction_count := λ p _,
    if decide (endpoint p = PyStr polygon_rpc) then Ok 3 else Ok 7;
  eth_get_balance := λ _ _, Ok (2 * ether);
  eth_send_raw_transaction := λ _ raw,
    match raw with
    | [] => Raise (Web3Error (-32000))
    | _ => Ok raw
    end;
  sign_transaction := λ tx_params _,
    if decide (tx_params = ∅) then Raise (Web3Error 1)
    else if decide (is_Some (tx_params !! "nonce")) then Ok [Byte.x01; Byte.x02]
    else Ok [];
  Account_from_key := λ _, Ok address;
  to_checksum_address := λ a, Ok a;
  load_token_contract := λ _ token,
    match token with
    | PyScalar (PyStr a) => Ok a
    | _ => Raise (Web3Error 2)
    end;
  balanceOf_call := λ _ _ _, Ok 1000;
  decimals_call := λ _ _, Ok 3%N;
|}.

(** An explicit network info for Ethereum main net, chain id 1. *)
Definition mainnet_info : NetworkInfo :=
  <["network" := PyStr "Ethereum"]>
    (entry "chain_id" 1 "https://eth.example.org" "ETH" "https://etherscan.io").

Definition private_key : string := "0x01".

(** The objects [AsyncWallet(private_key, mainnet_info)] and
    [Wallet(private_key, mainnet_info)] after a successful construction on
    chain 1. *)
Definition wallet_of (cls : WalletPy.wallet_class) : WalletPy.t :=
  WalletPy.Build cls mainnet_info
    (Connect AsyncWeb3 AsyncHTTPProvider (PyStr "https://eth.example.org"))
    private_key address address 7 1.

Definition async_wallet : WalletPy.t := wallet_of WalletPy.AsyncWallet_cls.
Definition wallet : WalletPy.t := wallet_of WalletPy.Wallet_cls.

(** A [_BaseWallet] on the same network. *)
Definition base_wallet : BaseWallet.t :=
  BaseWallet.Build (Connect Web3 HTTPProvider (PyStr "https://eth.example.org"))
    private_key address address 7 mainnet_info.

(** Transaction parameters with a nonce, and without. *)
Definition tx_params : TxParams :=
  <["nonce" := PyScalar (PyInt 7)]> {["to" := PyScalar (PyStr token_address)]}.
Definition tx_params_no_nonce : TxParams := {["to" := PyScalar (PyStr token_address)]}.

(** The zero address as twenty zero bytes. *)
Definition zero_bytes : list byte := repeat Byte.x00 20.

End Mock.

(** A mocked node for the transaction methods and the history. *)

Module MockNode.
Import Transactions.

Definition other : string := "0x00000000219ab540356cBB839Cbe05303d7705Fa".

Definition tx (sender : string) (receiver : scalar) : TxData :=
  <["from" := PyStr sender]> {["to" := receiver]}.

(** A chain of two blocks.  Block 0 holds a payment to the wallet and one
    between strangers, and, when [deploys] is set, a contract creation,
    which has no receiver.  Block 1 holds a payment by the wallet and one
    to its address in lower case. *)
Definition blocks (deploys : bool) (b : nat) : list TxData :=
  match b with
  | O => [tx other (PyStr Mock.address); tx other (PyStr other)]
         ++ (if deploys then [tx other PyNone] else [])
  | S O => [tx Mock.address (PyStr other);
            tx other (PyStr (lower Mock.identity_case Mock.address))]
  | _ => []
  end.

(** The gas price is 30 and every estimate 21000; checksumming accepts
    strings only; a contract function builds a transaction by adding its
    contract as receiver. *)
Definition node (deploys : bool) : Node := {|
  eth_gas_price := λ _, Ok 30;
  eth_estimate_gas := λ _ _, Ok 21000;
  provider_to_checksum_address := λ x,
    match x with
    | PyScalar (PyStr s) => Ok s
    | _ => Raise (Web3Error 3)
    end;
  functions_call := λ contract name args, Ok (Closure contract name args);
  build_transaction := λ closure tx_params,
    Ok (<["to" := PyScalar (PyStr (fn_contract closure))]> tx_params);
  eth_block_number := λ _, Ok 1;
  eth_get_block := λ _ b, Ok (blocks deploys (Z.to_nat b));
  Account_create_key := Ok "0x02";
|}.

(** A contract function, as [approve] makes it. *)
Definition closure : ContractFunction :=
  Closure Mock.token_address "approve"
    [PyScalar (PyStr other); PyScalar (PyInt 5)].

(** The state of [_load_token_contract] on a fresh [_BaseWallet]: nothing
    cached yet. *)
Definition fresh : TokenContracts.state := TokenContracts.State Mock.base_wallet [].

End MockNode.

(** ** The vocabulary of the specification *)

(** A recognized network name: a string that names an entry of the static
    table. *)
Definition recognized (table : gmap string NetworkInfo) (x : pyobj) : Prop :=
  ∃ name, x = PyScalar (PyStr name) ∧ is_Some (table !! name).

(** A complete network-info structure: a dictionary with every key of a
    network-info record. *)
Definition complete (x : pyobj) : Prop :=
  ∃ d, x = PyDict d ∧ ∀ k, k ∈ NetworkInfo_keys → is_Some (d !! k).

(** The network info that corresponds to a recognized name (the entry of
    the table, with the name added) or to a structure (the structure). *)
Definition network_info_of (table : gmap string NetworkInfo) (x : pyobj)
  : option NetworkInfo :=
  match x with
  | PyScalar (PyStr name) => (λ entry, <["network" := PyStr name]> entry) <$> table !! name
  | PyDict d => Some d
  | _ => None
  end.

(** A table is well formed when no entry carries the key [network], which
    the constructor call adds. *)
Definition well_formed (table : gmap string NetworkInfo) : Prop :=
  ∀ name entry, table !! name = Some entry → entry !! "network" = None.

(** A transaction between two accounts has a sender and a receiver; a
    contract creation has a sender and no receiver. *)
Definition transfer_tx (tx : Transactions.TxData) : Prop :=
  ∃ sender receiver,
    tx !! "from" = Some (PyStr sender) ∧ tx !! "to" = Some (PyStr receiver).

Definition creation_tx (tx : Transactions.TxData) : Prop :=
  ∃ sender, tx !! "from" = Some (PyStr sender) ∧ tx !! "to" = Some PyNone.

(** A transaction involves an address when the address is its sender or
    its receiver, letter case apart. *)
Definition involved (U : Unicode) (address : string) (tx : Transactions.TxData) : bool :=
  match tx !! "from", tx !! "to" with
  | Some (PyStr sender), Some (PyStr receiver) =>
      String.eqb (lower U address) (lower U sender)
      || String.eqb (lower U address) (lower U receiver)
  | _, _ => false
  end.

(** The transactions of the blocks [0 .. height], the newest block first
    and, within a block, the last transaction first. *)
Definition scan_order (blocks : nat → list Transactions.TxData) (height : nat)
  : list Transactions.TxData :=
  flat_map (λ b, rev (blocks b)) (rev (seq 0 (S height))).

(** * Properties *)

Import WalletPy.

(** Unfolding a method body down to the calls into the world. *)
Ltac run :=
  unfold Wallet_transact, Wallet_get_balance, Wallet_get_balance_of,
    AsyncWallet_transact, AsyncWallet_get_balance, AsyncWallet_get_balance_of,
    await_self_get_decimals, Wallet_get_decimals, AsyncWallet_get_decimals,
    asyncio_run, async_def, await, await_plain, bind, lift, get, modify, ret, raise in *;
  simpl in *.

(** ** The cached nonce *)

(** The outcome of [transact] in terms of the two calls it makes. *)
Lemma AsyncWallet_transact_run W tx_params loop w :
  AsyncWallet_transact W tx_params loop w =
  match sign_transaction W tx_params (private_key w) with
  | Raise e => (Raise e, w)
  | Ok raw =>
      match eth_send_raw_transaction W (provider w) raw with
      | Raise e => (Raise e, w)
      | Ok tx_hash => (Ok tx_hash, set_nonce (nonce w + 1) w)
      end
  end.
Proof.
  run. destruct (sign_transaction _ _ _); [|done].
  by destruct (eth_send_raw_transaction _ _ _).
Qed.

Lemma Wallet_transact_run W tx_params loop w :
  Wallet_transact W tx_params loop w =
  if loop then (Raise RuntimeError_running_loop, w)
  else AsyncWallet_transact W tx_params true w.
Proof. by destruct loop. Qed.

(** C1: when [transact] returns a transaction hash, the cached nonce has
    grown by exactly one.  This holds of the coroutine
    [AsyncWallet.transact] and of the blocking [Wallet.transact]. *)
Theorem transact_success_increments_nonce
    (W : World) (tx_params : TxParams) (loop : bool) (w w' : WalletPy.t)
    (tx_hash : list byte) :
  AsyncWallet_transact W tx_params loop w = (Ok tx_hash, w') ∨
  Wallet_transact W tx_params loop w = (Ok tx_hash, w') →
  nonce w' = nonce w + 1.
Proof.
  intros [H|H].
  - rewrite AsyncWallet_transact_run in H.
    destruct (sign_transaction _ _ _); [|congruence].
    destruct (eth_send_raw_transaction _ _ _); [|congruence].
    by inversion H.
  - rewrite Wallet_transact_run in H. destruct loop; [congruence|].
    rewrite AsyncWallet_transact_run in H.
    destruct (sign_transaction _ _ _); [|congruence].
    destruct (eth_send_raw_transaction _ _ _); [|congruence].
    by inversion H.
Qed.

Lemma transact_success_increments_nonce_witness :
  ∃ tx_hash w',
    Wallet_transact (Mock.world 1) Mock.tx_params false Mock.wallet = (Ok tx_hash, w') ∧
    nonce Mock.wallet = 7 ∧ nonce w' = 8.
Proof.
  eexists _, _. split; [vm_compute; reflexivity|]. split; [reflexivity|].
  change 8 with (nonce Mock.wallet + 1).
  apply (transact_success_increments_nonce (Mock.world 1) Mock.tx_params false
           Mock.wallet _ [Byte.x01; Byte.x02]).
  right. vm_compute. reflexivity.
Defined.

(** C10: when [transact] raises, be it in signing, in the submission or in
    [asyncio.run], the wallet object is left exactly as it was: the nonce
    is incremented only after the submission has returned. *)
Theorem transact_failure_keeps_state
    (W : World) (tx_params : TxParams) (loop : bool) (w w' : WalletPy.t) (e : exn) :
  AsyncWallet_transact W tx_params loop w = (Raise e, w') ∨
  Wallet_transact W tx_params loop w = (Raise e, w') →
  w' = w.
Proof.
  assert (∀ l, AsyncWallet_transact W tx_params l w = (Raise e, w') → w' = w) as Hasync.
  { intros l H. rewrite AsyncWallet_transact_run in H.
    destruct (sign_transaction _ _ _); [|by inversion H].
    destruct (eth_send_raw_transaction _ _ _); [congruence|by inversion H]. }
  intros [H|H]; [by eapply Hasync|].
  rewrite Wallet_transact_run in H. destruct loop; [by inversion H|by eapply Hasync].
Qed.

Lemma transact_failure_keeps_state_witness :
  ∃ e w',
    AsyncWallet_transact (Mock.world 1) Mock.tx_params_no_nonce true Mock.async_wallet
      = (Raise e, w') ∧
    w' = Mock.async_wallet ∧ nonce w' = 7.
Proof.
  exists (Web3Error (-32000)), Mock.async_wallet.
  split; [vm_compute; reflexivity|]. split; [|reflexivity].
  apply (transact_failure_keeps_state (Mock.world 1) Mock.tx_params_no_nonce true
           Mock.async_wallet Mock.async_wallet (Web3Error (-32000))).
  left. vm_compute. reflexivity.
Defined.

(** ** The network setter *)

(** The setters never write the keys, whatever their outcome. *)
Lemma network_setter_keeps_keys NETWORK_MAP W value loop w r w' :
  WalletPy.network_setter NETWORK_MAP W value loop w = (r, w') →
  private_key w' = private_key w ∧ public_key w' = public_key w.
Proof.
  unfold WalletPy.network_setter. run.
  destruct (__validate_network _ _) as [info|]; simpl; [|by intros [= _ <-]].
  destruct (getitem info "rpc") as [rpc|]; simpl; [|by intros [= _ <-]].
  destruct (eth_get_transaction_count _ _ _); simpl; [|by intros [= _ <-]].
  destruct (eth_chain_id _ _); simpl; by intros [= _ <-].
Qed.

Lemma BaseWallet_network_setter_keeps_keys W value loop b r b' :
  BaseWallet.network_setter W value loop b = (r, b') →
  BaseWallet.private_key b' = BaseWallet.private_key b ∧
  BaseWallet.public_key b' = BaseWallet.public_key b.
Proof.
  unfold BaseWallet.network_setter. run.
  destruct (BaseWallet.__validate_network _) as [info|]; simpl; [|by intros [= _ <-]].
  destruct (getitem info "rpc") as [rpc|]; simpl; [|by intros [= _ <-]].
  destruct (eth_get_transaction_count _ _ _); simpl; by intros [= _ <-].
Qed.

(** C9: when the network setter accepts a value, the private key and the
    public key are what they were, the network is the validated value, and
    the cached nonce is the transaction count the new network's endpoint
    reports for that same public key.  This holds of the setter of
    wallet.py and of the one of _base_wallet.py. *)
Theorem network_setter_refetches_nonce
    (NETWORK_MAP : gmap string NetworkInfo) (W : World) (value : pyobj) (loop : bool) :
  (∀ w w' : WalletPy.t,
     WalletPy.network_setter NETWORK_MAP W value loop w = (Ok tt, w') →
     private_key w' = private_key w ∧ public_key w' = public_key w ∧
     __validate_network NETWORK_MAP (Some value) = Ok (network w') ∧
     ∃ rpc, network w' !! "rpc" = Some rpc ∧
       eth_get_transaction_count W (Connect Web3 HTTPProvider rpc) (public_key w)
         = Ok (nonce w')) ∧
  (∀ b b' : BaseWallet.t,
     BaseWallet.network_setter W value loop b = (Ok tt, b') →
     BaseWallet.private_key b' = BaseWallet.private_key b ∧
     BaseWallet.public_key b' = BaseWallet.public_key b ∧
     BaseWallet.__validate_network value = Ok (BaseWallet.network b') ∧
     ∃ rpc, BaseWallet.network b' !! "rpc" = Some rpc ∧
       eth_get_transaction_count W (Connect Web3 HTTPProvider rpc) (BaseWallet.public_key b)
         = Ok (BaseWallet.nonce b')).
Proof.
  split.
  - intros w w' H.
    destruct (network_setter_keeps_keys _ _ _ _ _ _ _ H) as [Hpriv Hpub].
    do 2 (split; [done|]). revert H. unfold WalletPy.network_setter. run.
    destruct (__validate_network _ _) as [info|]; simpl; [|done].
    unfold getitem. destruct (info !! "rpc") as [rpc|] eqn:Hrpc; simpl; [|done].
    destruct (eth_get_transaction_count _ _ _) as [n|] eqn:Hn; simpl; [|done].
    destruct (eth_chain_id _ _); simpl; [|done].
    intros [= <-]. simpl. split; [done|]. by exists rpc.
  - intros b b' H.
    destruct (BaseWallet_network_setter_keeps_keys _ _ _ _ _ _ H) as [Hpriv Hpub].
    do 2 (split; [done|]). revert H. unfold BaseWallet.network_setter. run.
    destruct (BaseWallet.__validate_network _) as [info|]; simpl; [|done].
    unfold getitem. destruct (info !! "rpc") as [rpc|] eqn:Hrpc; simpl; [|done].
    destruct (eth_get_transaction_count _ _ _) as [n|] eqn:Hn; simpl; [|done].
    intros [= <-]. simpl. split; [done|]. by exists rpc.
Qed.

Lemma network_setter_refetches_nonce_witness :
  ∃ w' b',
    WalletPy.network_setter BaseWallet.__network_map (Mock.world 137)
      (PyStr "Polygon") false Mock.wallet = (Ok tt, w') ∧
    BaseWallet.network_setter (Mock.world 137) (PyStr "Polygon") false Mock.base_wallet
      = (Ok tt, b') ∧
    (private_key w' = private_key Mock.wallet ∧ public_key w' = public_key Mock.wallet ∧
     __validate_network BaseWallet.__network_map (Some (PyScalar (PyStr "Polygon")))
       = Ok (network w') ∧
     ∃ rpc, network w' !! "rpc" = Some rpc ∧
       eth_get_transaction_count (Mock.world 137) (Connect Web3 HTTPProvider rpc)
         (public_key Mock.wallet) = Ok (nonce w')) ∧
    nonce Mock.wallet = 7 ∧ nonce w' = 3 ∧ BaseWallet.nonce b' = 3.
Proof.
  eexists _, _.
  split; [vm_compute; reflexivity|]. split; [vm_compute; reflexivity|].
  split; [|by vm_compute].
  apply (proj1 (network_setter_refetches_nonce BaseWallet.__network_map (Mock.world 137)
                  (PyStr "Polygon") false) Mock.wallet).
  vm_compute. reflexivity.
Defined.

(** ** The explorer URL *)

(** C7, amended: for a transaction hash given as a [HexBytes],
    [get_explorer_url] returns the configured explorer URL, then [/tx/],
    then the hex form of the hash; _base_wallet.py does so for any [bytes]
    object, each with the hex form of its own class.  wallet.py takes a
    [HexBytes] only. *)
Theorem get_explorer_url_format (loop : bool) (explorer : string) (h : list byte) :
  (∀ w : WalletPy.t,
     network w !! "explorer" = Some (PyStr explorer) →
     WalletPy.get_explorer_url (PyHexBytes h) loop w
       = (Ok (explorer +:+ "/tx/" +:+ HexBytes_hex h), w)) ∧
  (∀ b : BaseWallet.t,
     BaseWallet.network b !! "explorer" = Some (PyStr explorer) →
     BaseWallet.get_explorer_url (PyHexBytes h) loop b
       = (Ok (explorer +:+ "/tx/" +:+ HexBytes_hex h), b) ∧
     BaseWallet.get_explorer_url (PyBytes h) loop b
       = (Ok (explorer +:+ "/tx/" +:+ bytes_hex h), b)).
Proof.
  split.
  - intros w H. unfold WalletPy.get_explorer_url, getitem. run. by rewrite H.
  - intros b H. unfold BaseWallet.get_explorer_url, getitem. run. by rewrite H.
Qed.

Lemma get_explorer_url_format_witness :
  WalletPy.get_explorer_url (PyHexBytes [Byte.xab; Byte.x01]) false Mock.wallet
    = (Ok "https://etherscan.io/tx/0xab01", Mock.wallet) ∧
  BaseWallet.get_explorer_url (PyBytes [Byte.xab; Byte.x01]) false Mock.base_wallet
    = (Ok "https://etherscan.io/tx/ab01", Mock.base_wallet).
Proof.
  destruct (get_explorer_url_format false "https://etherscan.io" [Byte.xab; Byte.x01])
    as [Hw Hb].
  split.
  - apply (Hw Mock.wallet). vm_compute. reflexivity.
  - apply (Hb Mock.base_wallet). vm_compute. reflexivity.
Defined.

(** C7 as stated, for every hash given as bytes, fails in wallet.py at a
    plain [bytes] hash: the type test of line 341 admits a [HexBytes] only,
    and the call raises instead of returning the URL. *)
Lemma get_explorer_url_format_counterexample :
  network Mock.wallet !! "explorer" = Some (PyStr "https://etherscan.io") ∧
  bytes_hex [Byte.xab; Byte.x01] = "ab01" ∧
  WalletPy.get_explorer_url (PyBytes [Byte.xab; Byte.x01]) false Mock.wallet
    = (Raise (TypeError_tx_hash bytes_t), Mock.wallet) ∧
  WalletPy.get_explorer_url (PyBytes [Byte.xab; Byte.x01]) false Mock.wallet
    ≠ (Ok "https://etherscan.io/tx/ab01", Mock.wallet).
Proof.
  split; [vm_compute; reflexivity|]. split; [vm_compute; reflexivity|].
  split; [reflexivity|]. intros H. discriminate H.
Qed.

(** C8: an argument that is not of a transaction-hash type makes
    [get_explorer_url] raise the invalid-transaction-hash-type error, and
    no URL is returned.  wallet.py accepts [HexBytes] alone;
    _base_wallet.py accepts [bytes] (so [HexBytes] too) and [str]. *)
Theorem get_explorer_url_rejects_other_types (loop : bool) (x : pyobj) :
  (∀ w : WalletPy.t,
     isinstance_HexBytes x = false →
     WalletPy.get_explorer_url x loop w = (Raise (TypeError_tx_hash (type_of x)), w)) ∧
  (∀ b : BaseWallet.t,
     isinstance_bytes x = false → isinstance_str x = false →
     BaseWallet.get_explorer_url x loop b = (Raise (TypeError_tx_hash (type_of x)), b)).
Proof.
  split.
  - intros w H. unfold WalletPy.get_explorer_url. run. by rewrite H.
  - intros b H1 H2. unfold BaseWallet.get_explorer_url. run. by rewrite H1, H2.
Qed.

Lemma get_explorer_url_rejects_other_types_witness :
  WalletPy.get_explorer_url (PyScalar (PyInt 171)) false Mock.wallet
    = (Raise (TypeError_tx_hash int_t), Mock.wallet) ∧
  BaseWallet.get_explorer_url (PyScalar (PyInt 171)) false Mock.base_wallet
    = (Raise (TypeError_tx_hash int_t), Mock.base_wallet).
Proof.
  destruct (get_explorer_url_rejects_other_types false (PyScalar (PyInt 171))) as [Hw Hb].
  split.
  - apply (Hw Mock.wallet). reflexivity.
  - apply (Hb Mock.base_wallet); reflexivity.
Defined.

(** What wallet.py does with the other hash representations: a [str] and a
    plain [bytes] are refused there, although _base_wallet.py takes both. *)
Lemma get_explorer_url_wallet_py_str_bytes (loop : bool) (w : WalletPy.t) s h :
  WalletPy.get_explorer_url (PyScalar (PyStr s)) loop w
    = (Raise (TypeError_tx_hash str_t), w) ∧
  WalletPy.get_explorer_url (PyBytes h) loop w = (Raise (TypeError_tx_hash bytes_t), w).
Proof. done. Qed.

Lemma BaseWallet_get_explorer_url_str (loop : bool) (b : BaseWallet.t) explorer s :
  BaseWallet.network b !! "explorer" = Some (PyStr explorer) →
  BaseWallet.get_explorer_url (PyScalar (PyStr s)) loop b
    = (Ok (explorer +:+ "/tx/" +:+ s), b).
Proof. intros H. unfold BaseWallet.get_explorer_url, getitem. run. by rewrite H. Qed.

(** ** Network validation *)

Lemma in_literal_true x literal :
  _in_literal x literal = true ↔ ∃ name, x = PyScalar (PyStr name) ∧ name ∈ literal.
Proof.
  destruct x as [[| | |name]| | |]; cbn [_in_literal];
    try (split; [done|by intros (? & [=] & _)]).
  rewrite bool_decide_eq_true.
  split; [by exists name|by intros (? & [= ->] & ?)].
Qed.

Lemma elem_of_keys_list_to_map {A} (l : list (string * A)) (name : string) :
  name ∈ l.*1 ↔ is_Some ((list_to_map l : gmap string A) !! name).
Proof.
  split.
  - intros Hin. destruct (list_to_map l !! name) eqn:E; [done|].
    by apply not_elem_of_list_to_map_2 in E.
  - intros [e He]. destruct (decide (name ∈ l.*1)); [done|].
    by rewrite (not_elem_of_list_to_map_1 l name) in He.
Qed.

Lemma in_literal_recognized NETWORK_MAP x :
  _in_literal x (Network NETWORK_MAP) = true ↔ recognized NETWORK_MAP x.
Proof.
  rewrite in_literal_true. unfold recognized, Network.
  by setoid_rewrite elem_of_elements; setoid_rewrite elem_of_dom.
Qed.

Lemma BaseWallet_in_literal_recognized x :
  _in_literal x BaseWallet.Network = true ↔ recognized BaseWallet.__network_map x.
Proof.
  rewrite in_literal_true. unfold recognized, BaseWallet.Network, BaseWallet.__network_map.
  by setoid_rewrite elem_of_keys_list_to_map.
Qed.

Lemma has_keys_dict d keys :
  _has_keys (PyDict d) keys = true ↔ ∀ k, k ∈ keys → is_Some (d !! k).
Proof.
  cbn [_has_keys]. rewrite <- Is_true_true, forallb_True, Forall_forall.
  split; intros H k Hk; specialize (H k Hk).
  - by apply bool_decide_unpack in H.
  - by apply bool_decide_pack.
Qed.

Lemma has_keys_complete x : _has_keys x NetworkInfo_keys = true ↔ complete x.
Proof.
  unfold complete. destruct x as [?| | |d];
    try (cbn [_has_keys]; split; [done|by intros (? & [=] & _)]).
  rewrite has_keys_dict. split; [by exists d|by intros (? & [= <-] & ?)].
Qed.

Lemma BaseWallet_network_map_well_formed : well_formed BaseWallet.__network_map.
Proof.
  intros name e He. apply elem_of_list_to_map_2 in He.
  assert (Forall (λ p : string * NetworkInfo, p.2 !! "network" = None)
            BaseWallet.network_table) as Hall.
  { unfold BaseWallet.network_table.
    repeat (constructor; [vm_compute; reflexivity|]). constructor. }
  rewrite Forall_forall in Hall. by apply (Hall (name, e)).
Qed.

Lemma complete_not_in_literal x names : complete x → _in_literal x names = false.
Proof. by intros (d & -> & _). Qed.

Lemma validate_network_valid NETWORK_MAP x :
  well_formed NETWORK_MAP → recognized NETWORK_MAP x ∨ complete x →
  ∃ info, network_info_of NETWORK_MAP x = Some info ∧
          __validate_network NETWORK_MAP (Some x) = Ok info.
Proof.
  intros Hwf [Hrec|Hcom]; unfold __validate_network, default; cbn [from_option id].
  - rewrite (proj2 (in_literal_recognized _ _) Hrec).
    destruct Hrec as (name & -> & [e He]). exists (<["network" := PyStr name]> e).
    cbn. unfold getitem, NetworkInfo_call. rewrite He. cbn.
    by rewrite (Hwf _ _ He).
  - rewrite (complete_not_in_literal _ _ Hcom), (proj2 (has_keys_complete _) Hcom).
    destruct Hcom as (d & -> & _). by exists d.
Qed.

Lemma BaseWallet_validate_network_valid x :
  recognized BaseWallet.__network_map x ∨ complete x →
  ∃ info, network_info_of BaseWallet.__network_map x = Some info ∧
          BaseWallet.__validate_network x = Ok info.
Proof.
  intros [Hrec|Hcom]; unfold BaseWallet.__validate_network.
  - rewrite (proj2 (BaseWallet_in_literal_recognized _) Hrec).
    destruct Hrec as (name & -> & [e He]). exists (<["network" := PyStr name]> e).
    cbn [network_info_of cast_Network cast_str result_bind].
    unfold getitem, NetworkInfo_call. rewrite He. cbn [fmap option_fmap option_map result_bind].
    by rewrite (BaseWallet_network_map_well_formed _ _ He).
  - rewrite (complete_not_in_literal _ _ Hcom), (proj2 (has_keys_complete _) Hcom).
    destruct Hcom as (d & -> & _). by exists d.
Qed.

Lemma validate_network_invalid NETWORK_MAP x :
  ¬ recognized NETWORK_MAP x → ¬ complete x →
  __validate_network NETWORK_MAP (Some x) = Raise (InvalidNetworkInfo x).
Proof.
  intros Hrec Hcom. unfold __validate_network, default. cbn [from_option id].
  destruct (_in_literal x _) eqn:E1; [by apply in_literal_recognized in E1|].
  destruct (_has_keys x _) eqn:E2; [by apply has_keys_complete in E2|done].
Qed.

Lemma BaseWallet_validate_network_invalid x :
  ¬ recognized BaseWallet.__network_map x → ¬ complete x →
  BaseWallet.__validate_network x = Raise (TypeError_network x).
Proof.
  intros Hrec Hcom. unfold BaseWallet.__validate_network.
  destruct (_in_literal x _) eqn:E1; [by apply BaseWallet_in_literal_recognized in E1|].
  destruct (_has_keys x _) eqn:E2; [by apply has_keys_complete in E2|done].
Qed.

(** C6: network validation accepts exactly the recognized names and the
    complete network-info structures, and yields the corresponding network
    info; on any other argument validation, and with it wallet
    construction and the network setter, raise the invalid-network error
    ([InvalidNetworkInfo] in wallet.py, the [TypeError] about the network
    information in _base_wallet.py) and leave the wallet as it was. *)
Theorem network_validation
    (NETWORK_MAP : gmap string NetworkInfo) (W : World) (x : pyobj) :
  well_formed NETWORK_MAP →
  (recognized NETWORK_MAP x ∨ complete x →
     ∃ info, network_info_of NETWORK_MAP x = Some info ∧
             __validate_network NETWORK_MAP (Some x) = Ok info) ∧
  (recognized BaseWallet.__network_map x ∨ complete x →
     ∃ info, network_info_of BaseWallet.__network_map x = Some info ∧
             BaseWallet.__validate_network x = Ok info) ∧
  (¬ recognized NETWORK_MAP x → ¬ complete x →
     __validate_network NETWORK_MAP (Some x) = Raise (InvalidNetworkInfo x) ∧
     (∀ cls private_key,
        WalletPy.__init__ NETWORK_MAP W cls private_key (Some x) = Raise (InvalidNetworkInfo x)) ∧
     (∀ loop w,
        WalletPy.network_setter NETWORK_MAP W x loop w = (Raise (InvalidNetworkInfo x), w))) ∧
  (¬ recognized BaseWallet.__network_map x → ¬ complete x →
     BaseWallet.__validate_network x = Raise (TypeError_network x) ∧
     (∀ private_key is_async,
        BaseWallet.__init__ W private_key x is_async = Raise (TypeError_network x)) ∧
     (∀ loop b,
        BaseWallet.network_setter W x loop b = (Raise (TypeError_network x), b))).
Proof.
  intros Hwf. split; [by apply validate_network_valid|].
  split; [apply BaseWallet_validate_network_valid|]. split.
  - intros Hrec Hcom. pose proof (validate_network_invalid _ _ Hrec Hcom) as H.
    split; [done|]. split.
    + intros cls pk. unfold WalletPy.__init__, default. cbn [from_option id]. by rewrite H.
    + intros loop w. unfold WalletPy.network_setter, bind, lift. by rewrite H.
  - intros Hrec Hcom. pose proof (BaseWallet_validate_network_invalid _ Hrec Hcom) as H.
    split; [done|]. split.
    + intros pk a. unfold BaseWallet.__init__. by rewrite H.
    + intros loop b. unfold BaseWallet.network_setter, bind, lift. by rewrite H.
Qed.

Lemma network_validation_witness :
  (∃ info, network_info_of BaseWallet.__network_map (PyScalar (PyStr "Polygon")) = Some info ∧
           BaseWallet.__validate_network (PyScalar (PyStr "Polygon")) = Ok info) ∧
  (∀ cls private_key,
     WalletPy.__init__ BaseWallet.__network_map (Mock.world 1) cls private_key
       (Some (PyScalar (PyStr "Nowhere")))
     = Raise (InvalidNetworkInfo (PyScalar (PyStr "Nowhere")))).
Proof.
  split.
  - destruct (network_validation BaseWallet.__network_map (Mock.world 1)
                (PyScalar (PyStr "Polygon")) BaseWallet_network_map_well_formed)
      as (_ & H & _).
    apply H. left. exists "Polygon". split; [reflexivity|].
    apply (bool_decide_unpack _). vm_compute. exact I.
  - destruct (network_validation BaseWallet.__network_map (Mock.world 1)
                (PyScalar (PyStr "Nowhere")) BaseWallet_network_map_well_formed)
      as (_ & _ & H & _).
    apply H.
    + intros (name & [= <-] & [e He]). vm_compute in He. discriminate He.
    + intros (d & [=] & _).
Defined.

(** The entry the table yields for a recognized name, read off key by
    key. *)
Example BaseWallet_validate_network_Polygon :
  (info ← BaseWallet.__validate_network (PyScalar (PyStr "Polygon"));
   Ok ((λ k, info !! k) <$> NetworkInfo_keys))%result
  = Ok [Some (PyStr "Polygon"); Some (PyInt 137);
        Some (PyStr "wss://polygon-bor-rpc.publicnode.com"); Some (PyStr "MATIC");
        Some (PyStr "https://polygonscan.com")].
Proof. vm_compute. reflexivity. Qed.

(** A name whose entry spells the chain-id key [chaind_id] is recognized
    all the same; its network info then has no [chain_id]. *)
Example BaseWallet_validate_network_opBNB :
  (info ← BaseWallet.__validate_network (PyScalar (PyStr "opBNB"));
   Ok (info !! "chain_id", info !! "chaind_id"))%result
  = Ok (None, Some (PyInt 204)).
Proof. vm_compute. reflexivity. Qed.

(** ** The chain-id check *)


(** Without a declared chain id ([None]) the live one is adopted. *)
Lemma BaseWallet_validate_chain_id_undeclared W info provider live :
  eth_chain_id W provider = Ok live →
  info !! "chain_id" = Some PyNone →
  BaseWallet.__validate_chain_id W info provider = Ok (<["chain_id" := PyInt live]> info).
Proof.
  intros Hlive Hdecl. unfold BaseWallet.__validate_chain_id, getitem.
  by rewrite Hlive, Hdecl.
Qed.




(** [AsyncWallet.__init__] never reads the chain id of the network info:
    whatever is declared there, construction has the same outcome. *)
Lemma init_ignores_declared_chain_id NETWORK_MAP W cls private_key d declared w :
  complete (PyDict d) →
  WalletPy.__init__ NETWORK_MAP W cls private_key (Some (PyDict d)) = Ok w →
  WalletPy.__init__ NETWORK_MAP W cls private_key (Some (PyDict (<["chain_id" := declared]> d)))
  = Ok (set_network (<["chain_id" := declared]> d) w).
Proof.
  intros Hcom. unfold WalletPy.__init__, __validate_network, default.
  cbn [from_option id _in_literal].
  assert (complete (PyDict (<["chain_id" := declared]> d))) as Hcom'.
  { destruct Hcom as (? & [= <-] & H). eexists; split; [done|]. intros k Hk.
    destruct (decide (k = "chain_id")) as [->|].
    - by rewrite lookup_insert_eq.
    - rewrite lookup_insert_ne by done. by apply H. }
  rewrite (proj2 (has_keys_complete _) Hcom), (proj2 (has_keys_complete _) Hcom').
  cbn [cast_NetworkInfo result_bind]. unfold getitem.
  rewrite lookup_insert_ne by done.
  destruct (d !! "rpc") as [rpc|]; [|done]. cbn [result_bind].
  destruct (Account_from_key W private_key) as [a|]; [|done]. cbn [result_bind].
  destruct (to_checksum_address W a) as [p|]; [|done]. cbn [result_bind].
  destruct (eth_get_transaction_count W _ p) as [n|]; [|done]. cbn [result_bind].
  destruct (eth_chain_id W _) as [c|]; [|done]. cbn [result_bind].
  by intros [= <-].
Qed.

Lemma init_ignores_declared_chain_id_witness :
  ∃ w,
    WalletPy.__init__ BaseWallet.__network_map (Mock.world 5) AsyncWallet_cls Mock.private_key
      (Some (PyDict (<["chain_id" := PyInt 5]> Mock.mainnet_info))) = Ok w ∧
    WalletPy.__init__ BaseWallet.__network_map (Mock.world 5) AsyncWallet_cls Mock.private_key
      (Some (PyDict (<["chain_id" := PyInt 1]> (<["chain_id" := PyInt 5]> Mock.mainnet_info))))
    = Ok (set_network (<["chain_id" := PyInt 1]> (<["chain_id" := PyInt 5]> Mock.mainnet_info)) w).
Proof.
  eexists. split; [vm_compute; reflexivity|].
  apply (init_ignores_declared_chain_id BaseWallet.__network_map (Mock.world 5)
           AsyncWallet_cls Mock.private_key (<["chain_id" := PyInt 5]> Mock.mainnet_info)).
  - apply has_keys_complete. vm_compute. reflexivity.
  - vm_compute. reflexivity.
Defined.

(** C2, at the failing input: with explicit network info that declares
    chain id 1 against an endpoint on chain 5, [_BaseWallet.__init__]
    raises the chain-id-mismatch error, but [AsyncWallet.__init__] and
    [Wallet.__init__] of wallet.py construct the wallet and adopt chain id
    5. *)
Theorem wallet_py_init_accepts_chain_id_mismatch :
  Mock.mainnet_info !! "chain_id" = Some (PyInt 1) ∧
  eth_chain_id (Mock.world 5) (Connect Web3 HTTPProvider (PyStr "https://eth.example.org"))
    = Ok 5 ∧
  BaseWallet.__init__ (Mock.world 5) Mock.private_key (PyDict Mock.mainnet_info) false
    = Raise (ValueError_chain_id "ethereum") ∧
  ∀ cls, ∃ w,
    WalletPy.__init__ BaseWallet.__network_map (Mock.world 5) cls Mock.private_key
      (Some (PyDict Mock.mainnet_info)) = Ok w ∧
    chain_id w = 5 ∧ network w !! "chain_id" = Some (PyInt 1).
Proof.
  split; [vm_compute; reflexivity|]. split; [reflexivity|].
  split; [vm_compute; reflexivity|].
  intros cls. eexists. split; [|split].
  - destruct cls; vm_compute; reflexivity.
  - destruct cls; reflexivity.
  - destruct cls; vm_compute; reflexivity.
Qed.

(** ** Balances *)

(** [AsyncWallet.get_balance_of] on an [AsyncWallet]: the raw balance when
    conversion is off, the balance divided by [10 ** decimals] when it is
    on (the default). *)
Lemma AsyncWallet_get_balance_of_convert W token convert loop w contract balance :
  class_of w = AsyncWallet_cls →
  load_token_contract W (provider w) token = Ok contract →
  balanceOf_call W (provider w) contract (public_key w) = Ok balance →
  AsyncWallet_get_balance_of W token convert loop w =
  if default true convert then
    match decimals_call W (provider w) contract with
    | Ok decimals => (Ok (TrueDiv balance (10 ^ Z.of_N decimals)), w)
    | Raise e => (Raise e, w)
    end
  else (Ok (Int balance), w).
Proof.
  intros Hcls Hload Hbal. run. rewrite Hload. simpl. rewrite Hbal. simpl.
  destruct (default true convert); [|done].
  rewrite Hcls, Hload. simpl. by destruct (decimals_call _ _ _).
Qed.

Lemma AsyncWallet_get_balance_of_convert_witness :
  AsyncWallet_get_balance_of (Mock.world 1) (PyScalar (PyStr Mock.token_address))
    (Some true) true Mock.async_wallet = (Ok (TrueDiv 1000 1000), Mock.async_wallet) ∧
  AsyncWallet_get_balance_of (Mock.world 1) (PyScalar (PyStr Mock.token_address))
    (Some false) true Mock.async_wallet = (Ok (Int 1000), Mock.async_wallet).
Proof.
  split.
  - apply (AsyncWallet_get_balance_of_convert (Mock.world 1) _ (Some true) true
             Mock.async_wallet Mock.token_address 1000); reflexivity.
  - apply (AsyncWallet_get_balance_of_convert (Mock.world 1) _ (Some false) true
             Mock.async_wallet Mock.token_address 1000); reflexivity.
Defined.

(** [Wallet.get_balance_of] does not depend on its [convert] argument. *)
Lemma Wallet_get_balance_of_ignores_convert W token convert convert' :
  Wallet_get_balance_of W token convert = Wallet_get_balance_of W token convert'.
Proof. reflexivity. Qed.

(** On a [Wallet], [Wallet.get_balance_of] never returns a balance: the
    coroutine it runs converts, and for the decimals it reaches
    [Wallet.get_decimals], whose [asyncio.run] is refused inside the
    running loop. *)
Lemma Wallet_get_balance_of_never_returns W token convert loop w n w' :
  class_of w = Wallet_cls →
  Wallet_get_balance_of W token convert loop w ≠ (Ok n, w').
Proof.
  intros Hcls. run. destruct loop; [done|].
  destruct (load_token_contract _ _ _); simpl; [|done].
  destruct (balanceOf_call _ _ _ _); simpl; [|done].
  by rewrite Hcls.
Qed.

Lemma Wallet_get_balance_of_never_returns_witness :
  Wallet_get_balance_of (Mock.world 1) (PyScalar (PyStr Mock.token_address)) (Some true)
    false Mock.wallet ≠ (Ok (TrueDiv 1000 1000), Mock.wallet).
Proof.
  apply (Wallet_get_balance_of_never_returns (Mock.world 1) _ (Some true) false Mock.wallet).
  reflexivity.
Defined.

(** C3, at the failing input: asked for the unconverted balance of a token
    of which the account holds 1000 units, [AsyncWallet.get_balance_of]
    returns 1000 (and 1000 / 10**3 when asked to convert), but
    [Wallet.get_balance_of] raises and returns no balance. *)
Theorem Wallet_get_balance_of_drops_convert :
  AsyncWallet_get_balance_of (Mock.world 1) (PyScalar (PyStr Mock.token_address))
    (Some false) true Mock.async_wallet = (Ok (Int 1000), Mock.async_wallet) ∧
  AsyncWallet_get_balance_of (Mock.world 1) (PyScalar (PyStr Mock.token_address))
    (Some true) true Mock.async_wallet = (Ok (TrueDiv 1000 (10 ^ 3)), Mock.async_wallet) ∧
  Wallet_get_balance_of (Mock.world 1) (PyScalar (PyStr Mock.token_address))
    (Some false) false Mock.wallet = (Raise RuntimeError_running_loop, Mock.wallet).
Proof. repeat split; vm_compute; reflexivity. Qed.

(** Where the blocking variant does pass its arguments on, it is the
    asynchronous operation run to completion. *)
Lemma Wallet_transact_blocks W tx_params :
  Wallet_transact W tx_params = asyncio_run (AsyncWallet_transact W tx_params).
Proof. reflexivity. Qed.

Lemma Wallet_get_decimals_blocks W token :
  Wallet_get_decimals W token = asyncio_run (AsyncWallet_get_decimals W token).
Proof. reflexivity. Qed.

(** [Wallet.get_balance] is the asynchronous operation with [to_wei] left
    at its default, whatever it was given. *)
Lemma Wallet_get_balance_ignores_to_wei W to_wei :
  Wallet_get_balance W to_wei = asyncio_run (AsyncWallet_get_balance W None).
Proof. reflexivity. Qed.

(** C4, at the failing input: [Wallet.get_balance(to_wei=True)] returns
    the balance converted to ether, while blocking on
    [AsyncWallet.get_balance(to_wei=True)] returns it in wei. *)
Theorem Wallet_get_balance_differs_from_async :
  Wallet_get_balance (Mock.world 1) (Some true) false Mock.wallet
    = (Ok (FromWei (2 * ether) ether), Mock.wallet) ∧
  asyncio_run (AsyncWallet_get_balance (Mock.world 1) (Some true)) false Mock.wallet
    = (Ok (Int (2 * ether)), Mock.wallet).
Proof. split; vm_compute; reflexivity. Qed.

(** ** The native token *)

(** On a string, [is_native_token] compares the upper-cased and the
    lower-cased argument with the configured symbol, and the argument
    with the zero address. *)
Lemma is_native_token_str W loop (w : WalletPy.t) (b : BaseWallet.t) native s :
  (network w !! "token" = Some (PyStr native) →
   WalletPy.is_native_token W (PyScalar (PyStr s)) loop w
   = (Ok (String.eqb (upper (str_case W) s) native || String.eqb (lower (str_case W) s) native
          || String.eqb s ZERO_ADDRESS), w)) ∧
  (BaseWallet.network b !! "token" = Some (PyStr native) →
   BaseWallet.is_native_token W (PyScalar (PyStr s)) loop b
   = (Ok (String.eqb (upper (str_case W) s) native || String.eqb (lower (str_case W) s) native
          || String.eqb s ZERO_ADDRESS), b)).
Proof.
  split; intros H.
  - unfold WalletPy.is_native_token, getitem. run. rewrite H. simpl.
    destruct (String.eqb (upper (str_case W) s) native); [done|].
    by destruct (String.eqb (lower (str_case W) s) native).
  - unfold BaseWallet.is_native_token, getitem. run. rewrite H. simpl.
    destruct (String.eqb (upper (str_case W) s) native); [done|].
    by destruct (String.eqb (lower (str_case W) s) native).
Qed.

(** Letter case on ASCII text: changing the case twice is changing it
    once, and the text stays ASCII. *)
Lemma lower_upper_ascii c : lower_ascii (upper_ascii c) = lower_ascii c.
Proof. destruct c as [[] [] [] [] [] [] [] []]; vm_compute; reflexivity. Qed.

Lemma upper_lower_ascii c : upper_ascii (lower_ascii c) = upper_ascii c.
Proof. destruct c as [[] [] [] [] [] [] [] []]; vm_compute; reflexivity. Qed.

Lemma lower_lower_ascii c : lower_ascii (lower_ascii c) = lower_ascii c.
Proof. destruct c as [[] [] [] [] [] [] [] []]; vm_compute; reflexivity. Qed.

Lemma is_ascii_char_upper c : is_ascii_char (upper_ascii c) = is_ascii_char c.
Proof. destruct c as [[] [] [] [] [] [] [] []]; vm_compute; reflexivity. Qed.

Lemma is_ascii_char_lower c : is_ascii_char (lower_ascii c) = is_ascii_char c.
Proof. destruct c as [[] [] [] [] [] [] [] []]; vm_compute; reflexivity. Qed.

Lemma map_string_compose f g h s :
  (∀ c, f (g c) = h c) → map_string f (map_string g s) = map_string h s.
Proof. intros Hc. induction s as [|c s IH]; [done|]. cbn. by rewrite Hc, IH. Qed.

Lemma is_ascii_map_string f s :
  (∀ c, is_ascii_char (f c) = is_ascii_char c) → is_ascii (map_string f s) = is_ascii s.
Proof. intros Hc. induction s as [|c s IH]; [done|]. cbn. by rewrite Hc, IH. Qed.

Lemma lower_upper U s : is_ascii s = true → lower U (upper U s) = lower U s.
Proof.
  intros Hs. unfold lower, upper. rewrite Hs.
  rewrite (is_ascii_map_string _ _ is_ascii_char_upper), Hs.
  apply map_string_compose, lower_upper_ascii.
Qed.

Lemma upper_lower U s : is_ascii s = true → upper U (lower U s) = upper U s.
Proof.
  intros Hs. unfold lower, upper. rewrite Hs.
  rewrite (is_ascii_map_string _ _ is_ascii_char_lower), Hs.
  apply map_string_compose, upper_lower_ascii.
Qed.

Lemma lower_lower U s : is_ascii s = true → lower U (lower U s) = lower U s.
Proof.
  intros Hs. unfold lower. rewrite Hs.
  rewrite (is_ascii_map_string _ _ is_ascii_char_lower), Hs.
  apply map_string_compose, lower_lower_ascii.
Qed.

(** The two comparisons of [is_native_token] against a symbol that is all
    upper case or all lower case amount to one comparison that ignores
    letter case. *)
Lemma case_comparisons U native s :
  is_ascii s = true → is_ascii native = true →
  upper U native = native ∨ lower U native = native →
  String.eqb (upper U s) native || String.eqb (lower U s) native
  = String.eqb (lower U s) (lower U native).
Proof.
  intros Hs Hn Hcase. apply Bool.eq_iff_eq_true.
  rewrite Bool.orb_true_iff, !String.eqb_eq. split.
  - intros [<-|<-]; [by rewrite lower_upper|by rewrite lower_lower].
  - intros Heq. destruct Hcase as [Hu|Hl].
    + left. by rewrite <- (upper_lower U s), Heq, upper_lower.
    + right. by rewrite Heq.
Qed.

(** On ASCII text [is_native_token] ignores letter case, provided the
    configured symbol is itself all upper case or all lower case (the
    symbols of the table are upper case): the answer is true exactly when
    the argument equals the symbol up to letter case, or is the zero
    address spelt as in [ZERO_ADDRESS].  The wallet is unchanged. *)
Theorem is_native_token_ignores_case
    (W : World) (loop : bool) (w : WalletPy.t) (b : BaseWallet.t) (native s : string) :
  is_ascii s = true → is_ascii native = true →
  upper (str_case W) native = native ∨ lower (str_case W) native = native →
  (network w !! "token" = Some (PyStr native) →
   WalletPy.is_native_token W (PyScalar (PyStr s)) loop w
   = (Ok (String.eqb (lower (str_case W) s) (lower (str_case W) native)
          || String.eqb s ZERO_ADDRESS), w)) ∧
  (BaseWallet.network b !! "token" = Some (PyStr native) →
   BaseWallet.is_native_token W (PyScalar (PyStr s)) loop b
   = (Ok (String.eqb (lower (str_case W) s) (lower (str_case W) native)
          || String.eqb s ZERO_ADDRESS), b)).
Proof.
  intros Hs Hn Hcase.
  destruct (is_native_token_str W loop w b native s) as [Hw Hb].
  split; intros H; [rewrite (Hw H)|rewrite (Hb H)];
    by rewrite (case_comparisons _ _ _ Hs Hn Hcase).
Qed.

Lemma is_native_token_ignores_case_witness :
  WalletPy.is_native_token (Mock.world 1) (PyScalar (PyStr "eTh")) false Mock.wallet
    = (Ok true, Mock.wallet) ∧
  BaseWallet.is_native_token (Mock.world 1) (PyScalar (PyStr "eTh")) false Mock.base_wallet
    = (Ok true, Mock.base_wallet) ∧
  WalletPy.is_native_token (Mock.world 1) (PyScalar (PyStr "0X00")) false Mock.wallet
    = (Ok false, Mock.wallet).
Proof.
  destruct (is_native_token_ignores_case (Mock.world 1) false Mock.wallet Mock.base_wallet
              "ETH" "eTh") as [Hw Hb]; [reflexivity|reflexivity|left; reflexivity|].
  destruct (is_native_token_ignores_case (Mock.world 1) false Mock.wallet Mock.base_wallet
              "ETH" "0X00") as [Hw' _]; [reflexivity|reflexivity|left; reflexivity|].
  split; [|split].
  - rewrite Hw by (vm_compute; reflexivity). reflexivity.
  - rewrite Hb by (vm_compute; reflexivity). reflexivity.
  - rewrite Hw' by (vm_compute; reflexivity). reflexivity.
Defined.

(** On a [bytes] or [HexBytes] argument the answer is always [False]: the
    hex form is computed and dropped, and a [bytes] equals no string. *)
Lemma is_native_token_bytes W loop (w : WalletPy.t) (b : BaseWallet.t) native x :
  isinstance_bytes x = true →
  (network w !! "token" = Some native →
   WalletPy.is_native_token W x loop w = (Ok false, w)) ∧
  (BaseWallet.network b !! "token" = Some native →
   BaseWallet.is_native_token W x loop b = (Ok false, b)).
Proof.
  intros Hx. split; intros H.
  - unfold WalletPy.is_native_token, getitem. run. rewrite H.
    by destruct x as [?|?|?|?].
  - unfold BaseWallet.is_native_token, getitem. run. rewrite H.
    by destruct x as [?|?|?|?].
Qed.

(** C5, at the failing input: on a wallet whose native token is ETH,
    [is_native_token] is true of the symbol in any letter case and of the
    zero address as a string, but false of the zero address as bytes. *)
Theorem is_native_token_zero_address_bytes (W : World) :
  WalletPy.is_native_token W (PyScalar (PyStr "eTh")) false Mock.wallet = (Ok true, Mock.wallet) ∧
  WalletPy.is_native_token W (PyScalar (PyStr ZERO_ADDRESS)) false Mock.wallet
    = (Ok true, Mock.wallet) ∧
  WalletPy.is_native_token W (PyScalar (PyStr "DAI")) false Mock.wallet
    = (Ok false, Mock.wallet) ∧
  HexBytes_hex Mock.zero_bytes = ZERO_ADDRESS ∧
  WalletPy.is_native_token W (PyHexBytes Mock.zero_bytes) false Mock.wallet
    = (Ok false, Mock.wallet) ∧
  BaseWallet.is_native_token W (PyHexBytes Mock.zero_bytes) false Mock.base_wallet
    = (Ok false, Mock.base_wallet) ∧
  BaseWallet.is_native_token W (PyBytes Mock.zero_bytes) false Mock.base_wallet
    = (Ok false, Mock.base_wallet).
Proof. repeat split; vm_compute; reflexivity. Qed.

(** A configured symbol of mixed case is matched by no argument, not even
    by itself: only the argument is case-converted. *)
Example is_native_token_mixed_case_symbol (W : World) :
  let w := set_network (<["token" := PyStr "Matic"]> Mock.mainnet_info) Mock.wallet in
  WalletPy.is_native_token W (PyScalar (PyStr "Matic")) false w = (Ok false, w) ∧
  WalletPy.is_native_token W (PyScalar (PyStr "MATIC")) false w = (Ok false, w).
Proof. split; vm_compute; reflexivity. Qed.

(** ** The transaction history *)

Import Transactions.

Lemma involves_transfer_tx W public_key tx :
  transfer_tx tx → involves W public_key tx = Ok (involved (str_case W) public_key tx).
Proof.
  intros (sender & receiver & Hs & Hr). unfold involves, involved, getitem.
  by rewrite Hs, Hr.
Qed.

Lemma involves_creation_tx W public_key tx :
  creation_tx tx → involves W public_key tx = Raise (AttributeError NoneType "lower").
Proof.
  intros (sender & Hs & Hr). unfold involves, getitem. by rewrite Hs, Hr.
Qed.

Lemma scan_block_transfers W public_key txs transactions :
  Forall transfer_tx txs →
  scan_block W public_key txs transactions
  = Ok (transactions ++ List.filter (involved (str_case W) public_key) txs)%list.
Proof.
  intros Hall. revert transactions.
  induction Hall as [|tx txs Htx _ IH]; intros transactions.
  - cbn. by rewrite app_nil_r.
  - cbn [scan_block List.filter]. rewrite (involves_transfer_tx _ _ _ Htx).
    cbn [result_bind]. rewrite IH.
    destruct (involved (str_case W) public_key tx); [|done].
    by rewrite <- app_assoc.
Qed.

Lemma scan_block_creation W public_key txs transactions :
  Forall (λ tx, transfer_tx tx ∨ creation_tx tx) txs →
  Exists creation_tx txs →
  scan_block W public_key txs transactions = Raise (AttributeError NoneType "lower").
Proof.
  intros Hall. revert transactions.
  induction Hall as [|tx txs Htx _ IH]; intros transactions Hex.
  - by apply Exists_nil in Hex.
  - cbn [scan_block]. destruct Htx as [Htx|Htx].
    + rewrite (involves_transfer_tx _ _ _ Htx). cbn [result_bind]. apply IH.
      apply Exists_cons in Hex as [Hc|Hex]; [|done].
      destruct Htx as (? & ? & _ & Hr), Hc as (? & _ & Hr'). congruence.
    + by rewrite (involves_creation_tx _ _ _ Htx).
Qed.

Lemma transfers_or_creation txs :
  Forall (λ tx, transfer_tx tx ∨ creation_tx tx) txs →
  Forall transfer_tx txs ∨ Exists creation_tx txs.
Proof.
  induction 1 as [|tx txs [Ht|Hc] _ [IH|IH]].
  - by left.
  - left. by constructor.
  - right. by apply Exists_cons_tl.
  - right. by apply Exists_cons_hd.
  - right. by apply Exists_cons_hd.
Qed.

Lemma rev_seq_S n : rev (seq 0 (S n)) = n :: rev (seq 0 n).
Proof. by rewrite seq_S, rev_app_distr. Qed.

Lemma scan_blocks_transfers W N provider public_key blocks count transactions :
  (∀ b, (b < count)%nat →
        eth_get_block N provider (Z.of_nat b) = Ok (blocks b) ∧
        Forall transfer_tx (blocks b)) →
  scan_blocks W N provider public_key count transactions
  = Ok (transactions ++
        List.filter (involved (str_case W) public_key)
          (flat_map (λ b, rev (blocks b)) (rev (seq 0 count))))%list.
Proof.
  revert transactions. induction count as [|n IH]; intros transactions Hblocks.
  - cbn. by rewrite app_nil_r.
  - destruct (Hblocks n) as [Hget Hall]; [lia|].
    cbn [scan_blocks]. rewrite Hget. cbn [result_bind].
    rewrite scan_block_transfers by by apply Forall_rev.
    cbn [result_bind]. rewrite IH by (intros b ?; apply Hblocks; lia).
    rewrite rev_seq_S. cbn [flat_map].
    by rewrite List.filter_app, app_assoc.
Qed.

Lemma scan_blocks_creation W N provider public_key blocks count transactions :
  (∀ b, (b < count)%nat →
        eth_get_block N provider (Z.of_nat b) = Ok (blocks b) ∧
        Forall (λ tx, transfer_tx tx ∨ creation_tx tx) (blocks b)) →
  Exists creation_tx (flat_map (λ b, rev (blocks b)) (rev (seq 0 count))) →
  scan_blocks W N provider public_key count transactions
  = Raise (AttributeError NoneType "lower").
Proof.
  revert transactions. induction count as [|n IH]; intros transactions Hblocks Hex.
  - by apply Exists_nil in Hex.
  - destruct (Hblocks n) as [Hget Hall]; [lia|].
    cbn [scan_blocks]. rewrite Hget. cbn [result_bind].
    rewrite rev_seq_S in Hex. cbn [flat_map] in Hex.
    apply Forall_rev in Hall.
    destruct (transfers_or_creation _ Hall) as [Ht|Hc].
    + rewrite scan_block_transfers by done. cbn [result_bind].
      apply IH; [intros b ?; apply Hblocks; lia|].
      apply Exists_app in Hex as [Hex|Hex]; [|done].
      exfalso. clear -Ht Hex. induction Hex as [tx txs Hc|tx txs _ IH'].
      * apply Forall_cons in Ht as [(? & ? & _ & Hr) _].
        destruct Hc as (? & _ & Hr'). congruence.
      * apply Forall_cons in Ht as [_ Ht]. by apply IH'.
    + by rewrite scan_block_creation.
Qed.

(** What [get_transactions] returns on a chain of account-to-account
    transactions: those that involve the wallet's address, letter case
    apart, from the newest block to block 0 and within a block from the
    last transaction to the first.  The wallet is unchanged. *)
Theorem get_transactions_filters_chain
    (W : World) (N : Node) (loop : bool) (w : WalletPy.t) (rpc : scalar) (height : nat)
    (blocks : nat → list TxData) :
  network w !! "rpc" = Some rpc →
  eth_block_number N (Connect Web3 HTTPProvider rpc) = Ok (Z.of_nat height) →
  (∀ b, (b ≤ height)%nat →
        eth_get_block N (Connect Web3 HTTPProvider rpc) (Z.of_nat b) = Ok (blocks b) ∧
        Forall transfer_tx (blocks b)) →
  get_transactions W N loop w
  = (Ok (List.filter (involved (str_case W) (public_key w))
           (scan_order blocks height)), w).
Proof.
  intros Hrpc Hnum Hblocks.
  unfold get_transactions, bind, lift, get, getitem. rewrite Hrpc, Hnum.
  replace (Z.to_nat (Z.of_nat height - (0 - 1))) with (S height) by lia.
  rewrite (scan_blocks_transfers _ _ _ _ blocks) by (intros b ?; apply Hblocks; lia).
  done.
Qed.

(** A contract creation among the scanned transactions makes
    [get_transactions] raise: such a transaction has [None] for receiver,
    and the test lower-cases the receiver of every transaction.  No
    partial list is returned. *)
Theorem get_transactions_fails_on_contract_creation
    (W : World) (N : Node) (loop : bool) (w : WalletPy.t) (rpc : scalar) (height : nat)
    (blocks : nat → list TxData) :
  network w !! "rpc" = Some rpc →
  eth_block_number N (Connect Web3 HTTPProvider rpc) = Ok (Z.of_nat height) →
  (∀ b, (b ≤ height)%nat →
        eth_get_block N (Connect Web3 HTTPProvider rpc) (Z.of_nat b) = Ok (blocks b) ∧
        Forall (λ tx, transfer_tx tx ∨ creation_tx tx) (blocks b)) →
  Exists creation_tx (scan_order blocks height) →
  get_transactions W N loop w = (Raise (AttributeError NoneType "lower"), w).
Proof.
  intros Hrpc Hnum Hblocks Hex.
  unfold get_transactions, bind, lift, get, getitem. rewrite Hrpc, Hnum.
  replace (Z.to_nat (Z.of_nat height - (0 - 1))) with (S height) by lia.
  rewrite (scan_blocks_creation _ _ _ _ blocks); [done| |done].
  intros b ?. apply Hblocks. lia.
Qed.

Lemma MockNode_tx_transfer sender receiver :
  transfer_tx (MockNode.tx sender (PyStr receiver)).
Proof.
  exists sender, receiver. unfold MockNode.tx. split.
  - apply lookup_insert_eq.
  - rewrite lookup_insert_ne by done. apply lookup_singleton_eq.
Defined.

Lemma MockNode_tx_creation sender : creation_tx (MockNode.tx sender PyNone).
Proof.
  exists sender. unfold MockNode.tx. split.
  - apply lookup_insert_eq.
  - rewrite lookup_insert_ne by done. apply lookup_singleton_eq.
Defined.

Lemma get_transactions_filters_chain_witness :
  get_transactions (Mock.world 1) (MockNode.node false) false Mock.wallet
  = (Ok (List.filter (involved (str_case (Mock.world 1)) (public_key Mock.wallet))
           (scan_order (MockNode.blocks false) 1)), Mock.wallet) ∧
  List.filter (involved (str_case (Mock.world 1)) (public_key Mock.wallet))
    (scan_order (MockNode.blocks false) 1)
  = [MockNode.tx MockNode.other (PyStr (lower Mock.identity_case Mock.address));
     MockNode.tx Mock.address (PyStr MockNode.other);
     MockNode.tx MockNode.other (PyStr Mock.address)].
Proof.
  split; [|vm_compute; reflexivity].
  apply (get_transactions_filters_chain (Mock.world 1) (MockNode.node false) false Mock.wallet
           (PyStr "https://eth.example.org") 1 (MockNode.blocks false)).
  - vm_compute. reflexivity.
  - reflexivity.
  - intros [|[|b]] Hb; [| |lia]; (split; [reflexivity|]);
      cbn [MockNode.blocks app];
      repeat (apply Forall_cons_2; [apply MockNode_tx_transfer|]); apply Forall_nil_2.
Defined.

Lemma get_transactions_fails_on_contract_creation_witness :
  get_transactions (Mock.world 1) (MockNode.node true) false Mock.wallet
  = (Raise (AttributeError NoneType "lower"), Mock.wallet).
Proof.
  apply (get_transactions_fails_on_contract_creation (Mock.world 1) (MockNode.node true) false Mock.wallet
           (PyStr "https://eth.example.org") 1 (MockNode.blocks true)).
  - vm_compute. reflexivity.
  - reflexivity.
  - intros [|[|b]] Hb; [| |lia]; (split; [reflexivity|]);
      cbn [MockNode.blocks app];
      repeat (apply Forall_cons_2;
              [first [left; apply MockNode_tx_transfer
                     |right; apply MockNode_tx_creation]|]);
      apply Forall_nil_2.
  - change (Exists creation_tx
              [MockNode.tx MockNode.other (PyStr (lower Mock.identity_case Mock.address));
               MockNode.tx Mock.address (PyStr MockNode.other);
               MockNode.tx MockNode.other PyNone;
               MockNode.tx MockNode.other (PyStr MockNode.other);
               MockNode.tx MockNode.other (PyStr Mock.address)]).
    do 2 apply Exists_cons_tl. apply Exists_cons_hd. apply MockNode_tx_creation.
Defined.

(** ** Building and sending transactions *)

(** Unfolding the monad of method bodies, and nothing else. *)
Ltac steps :=
  cbv beta iota zeta delta
    [asyncio_run async_def await await_plain bind lift get modify ret raise] in *.

(** The parameters [build_transaction_params] builds: sender, chain id and
    nonce are the wallet's, the value is the argument; a gas of [None] or
    0 is replaced by 250000 and a gas price of [None] or 0 by the node's;
    a receiver and data are present exactly when the arguments are
    truthy.  The wallet is unchanged. *)
Theorem build_transaction_params_fields
    (N : Node) (value : Z) (recipient raw_data : pyobj) (gas gas_price : option Z)
    (loop : bool) (w w' : WalletPy.t) (p : TxParams) :
  AsyncWallet_build_transaction_params N value recipient raw_data gas gas_price loop w
    = (Ok p, w') →
  w' = w ∧
  p !! "from" = Some (PyScalar (PyStr (public_key w))) ∧
  p !! "chainId" = Some (PyScalar (PyInt (chain_id w))) ∧
  p !! "nonce" = Some (PyScalar (PyInt (nonce w))) ∧
  p !! "value" = Some (PyScalar (PyInt value)) ∧
  p !! "gas" = Some (PyScalar (PyInt match gas with
                                     | Some g => if Z.eqb g 0 then 250000 else g
                                     | None => 250000
                                     end)) ∧
  (∃ price, p !! "gasPrice" = Some (PyScalar (PyInt price)) ∧
     match gas_price with
     | Some g => if Z.eqb g 0 then eth_gas_price N (provider w) = Ok price else price = g
     | None => eth_gas_price N (provider w) = Ok price
     end) ∧
  (if truthy recipient
   then ∃ to, provider_to_checksum_address N recipient = Ok to ∧
              p !! "to" = Some (PyScalar (PyStr to))
   else p !! "to" = None) ∧
  p !! "data" = (if truthy raw_data then Some raw_data else None).
Proof.
  unfold AsyncWallet_build_transaction_params, default. steps.
  destruct gas as [g'|]; cbn [truthy_int from_option id];
    [destruct (Z.eqb g' 0); cbn [negb]|];
  (destruct gas_price as [g|]; cbn [truthy_int from_option id];
    [destruct (Z.eqb g 0); cbn [negb]|]);
  try (destruct (eth_gas_price N (provider w)) as [price|] eqn:Hprice; [|done]);
  (destruct (truthy recipient);
    [destruct (provider_to_checksum_address N recipient) as [to|]; [|done]|]);
  destruct (truthy raw_data);
  intros [= <- <-]; (split; [done|]);
  repeat (split; [by simplify_map_eq|]);
  (split; [eexists; split; [by simplify_map_eq|done]|]);
  (split; [|by simplify_map_eq]);
  first [by simplify_map_eq | eexists; split; [done|by simplify_map_eq]].
Qed.

(** [build_transaction_params] fails only when it has to ask the node for
    the gas price and that call fails, or when checksumming a truthy
    receiver fails; it then raises that error and leaves the wallet as it
    was. *)
Theorem build_transaction_params_failure
    (N : Node) (value : Z) (recipient raw_data : pyobj) (gas gas_price : option Z)
    (loop : bool) (w w' : WalletPy.t) (e : exn) :
  AsyncWallet_build_transaction_params N value recipient raw_data gas gas_price loop w
    = (Raise e, w') →
  w' = w ∧
  ((truthy_int gas_price = false ∧ eth_gas_price N (provider w) = Raise e) ∨
   (truthy recipient = true ∧ provider_to_checksum_address N recipient = Raise e)).
Proof.
  unfold AsyncWallet_build_transaction_params. steps.
  destruct (truthy_int gas_price) eqn:Hgp.
  - destruct (truthy recipient) eqn:Hr.
    + destruct (provider_to_checksum_address N recipient) eqn:Hc; [done|].
      intros [= <- <-]. eauto.
    + done.
  - destruct (eth_gas_price N (provider w)) eqn:Hprice.
    + destruct (truthy recipient) eqn:Hr; [|done].
      destruct (provider_to_checksum_address N recipient) eqn:Hc; [done|].
      intros [= <- <-]. eauto.
    + intros [= <- <-]. eauto.
Qed.

(** The outcome of [build_transaction_params] never changes the wallet. *)
Lemma build_transaction_params_frame N value recipient raw_data gas gas_price loop w r w' :
  AsyncWallet_build_transaction_params N value recipient raw_data gas gas_price loop w
    = (r, w') → w' = w.
Proof.
  unfold AsyncWallet_build_transaction_params. steps.
  destruct (truthy_int gas_price); [|destruct (eth_gas_price N (provider w))];
    try (by intros [= _ <-]);
    (destruct (truthy recipient);
     [destruct (provider_to_checksum_address N recipient)|]; by intros [= _ <-]).
Qed.

(** The parameters [build_transaction_params] returns have a gas field. *)
Lemma build_transaction_params_has_gas N value recipient raw_data gas gas_price loop w p w' :
  AsyncWallet_build_transaction_params N value recipient raw_data gas gas_price loop w
    = (Ok p, w') → is_Some (p !! "gas").
Proof.
  unfold AsyncWallet_build_transaction_params. steps.
  destruct (truthy_int gas_price); [|destruct (eth_gas_price N (provider w)); [|done]];
    (destruct (truthy recipient);
     [destruct (provider_to_checksum_address N recipient); [|done]|]);
    destruct (truthy raw_data); intros [= <- <-]; eexists; by simplify_map_eq.
Qed.

(** [build_and_transact] on an [AsyncWallet], once the parameters are
    built and the contract function has built its transaction from them. *)
Lemma AsyncWallet_build_and_transact_run W N closure value gas gas_price loop w p built :
  class_of w = AsyncWallet_cls →
  AsyncWallet_build_transaction_params N value PyNone PyNone gas gas_price true w
    = (Ok p, w) →
  build_transaction N closure p = Ok built →
  AsyncWallet_build_and_transact W N closure value gas gas_price loop w =
  if truthy_int gas then AsyncWallet_transact W built true w
  else match built !! "gas" with
       | None => (Raise (KeyError "gas"), w)
       | Some _ =>
           match eth_estimate_gas N (provider w) (delete "gas" built) with
           | Ok estimate =>
               AsyncWallet_transact W
                 (<["gas" := PyScalar (PyInt estimate)]> (delete "gas" built)) true w
           | Raise e => (Raise e, w)
           end
       end.
Proof.
  intros Hcls Hp Hbuilt.
  unfold AsyncWallet_build_and_transact, await_self_build_transaction_params,
    await_self_estimate_gas, await_self_transact, AsyncWallet_estimate_gas, delitem.
  steps. rewrite Hcls, Hp, Hbuilt.
  destruct (truthy_int gas); cbn [negb]; [by rewrite Hcls|].
  destruct (built !! "gas"); [|done]. rewrite Hcls.
  destruct (eth_estimate_gas N (provider w) _); [|done]. by rewrite Hcls.
Qed.

(** Whatever [build_and_transact] does on an [AsyncWallet], it ends in one
    of two ways. *)
Lemma AsyncWallet_build_and_transact_outcome W N closure value gas gas_price loop w r w' :
  class_of w = AsyncWallet_cls →
  AsyncWallet_build_and_transact W N closure value gas gas_price loop w = (r, w') →
  match r with
  | Ok _ => w' = set_nonce (nonce w + 1) w
  | Raise _ => w' = w
  end.
Proof.
  intros Hcls.
  destruct (AsyncWallet_build_transaction_params N value PyNone PyNone gas gas_price true w)
    as [[p|e] w1] eqn:Hp.
  - pose proof (build_transaction_params_frame _ _ _ _ _ _ _ _ _ _ Hp) as ->.
    destruct (build_transaction N closure p) as [built|e] eqn:Hbuilt.
    + rewrite (AsyncWallet_build_and_transact_run _ _ _ _ _ _ _ _ _ _ Hcls Hp Hbuilt).
      assert (∀ params, AsyncWallet_transact W params true w = (r, w') →
                match r with
                | Ok _ => w' = set_nonce (nonce w + 1) w
                | Raise _ => w' = w
                end) as Htransact.
      { intros params. rewrite AsyncWallet_transact_run.
        destruct (sign_transaction _ _ _); [|by intros [= <- <-]].
        destruct (eth_send_raw_transaction _ _ _); by intros [= <- <-]. }
      destruct (truthy_int gas); [apply Htransact|].
      destruct (built !! "gas"); [|by intros [= <- <-]].
      destruct (eth_estimate_gas _ _ _); [apply Htransact|by intros [= <- <-]].
    + unfold AsyncWallet_build_and_transact, await_self_build_transaction_params.
      steps. rewrite Hcls, Hp, Hbuilt. by intros [= <- <-].
  - pose proof (build_transaction_params_frame _ _ _ _ _ _ _ _ _ _ Hp) as ->.
    unfold AsyncWallet_build_and_transact, await_self_build_transaction_params.
    steps. rewrite Hcls, Hp. by intros [= <- <-].
Qed.

(** [build_and_transact] signs and submits the transaction the contract
    function built from the wallet's parameters.  Without a gas argument
    (or with 0) its gas field is first replaced by the node's estimate for
    the transaction without a gas field, and a built transaction that has
    no gas field makes the call raise [KeyError]; with a gas argument the
    node is not asked for an estimate. *)
Theorem build_and_transact_signs_built_transaction
    (W : World) (N : Node) (closure : ContractFunction) (value : Z)
    (gas gas_price : option Z) (loop : bool) (w : WalletPy.t) (p built : TxParams) :
  class_of w = AsyncWallet_cls →
  AsyncWallet_build_transaction_params N value PyNone PyNone gas gas_price true w
    = (Ok p, w) →
  build_transaction N closure p = Ok built →
  AsyncWallet_build_and_transact W N closure value gas gas_price loop w =
  match gas with
  | Some g =>
      if Z.eqb g 0 then
        match built !! "gas" with
        | None => (Raise (KeyError "gas"), w)
        | Some _ =>
            match eth_estimate_gas N (provider w) (delete "gas" built) with
            | Ok estimate =>
                AsyncWallet_transact W
                  (<["gas" := PyScalar (PyInt estimate)]> (delete "gas" built)) true w
            | Raise e => (Raise e, w)
            end
        end
      else AsyncWallet_transact W built true w
  | None =>
      match built !! "gas" with
      | None => (Raise (KeyError "gas"), w)
      | Some _ =>
          match eth_estimate_gas N (provider w) (delete "gas" built) with
          | Ok estimate =>
              AsyncWallet_transact W
                (<["gas" := PyScalar (PyInt estimate)]> (delete "gas" built)) true w
          | Raise e => (Raise e, w)
          end
      end
  end.
Proof.
  intros Hcls Hp Hbuilt.
  rewrite (AsyncWallet_build_and_transact_run _ _ _ _ _ _ _ _ _ _ Hcls Hp Hbuilt).
  destruct gas as [g|]; [|done]. cbn [truthy_int]. by destruct (Z.eqb g 0).
Qed.

(** On an [AsyncWallet], [build_and_transact] and [approve] are all or
    nothing: either they return a transaction hash and the cached nonce
    has grown by exactly one, nothing else of the wallet having changed,
    or they raise and the wallet is as it was. *)
Theorem build_and_transact_all_or_nothing
    (W : World) (N : Node) (closure : ContractFunction) (value amount : Z)
    (gas gas_price : option Z) (token spender : pyobj) (loop : bool)
    (w w' : WalletPy.t) (r : result (list byte)) :
  class_of w = AsyncWallet_cls →
  AsyncWallet_build_and_transact W N closure value gas gas_price loop w = (r, w') ∨
  AsyncWallet_approve W N token spender amount loop w = (r, w') →
  match r with
  | Ok _ => w' = set_nonce (nonce w + 1) w
  | Raise _ => w' = w
  end.
Proof.
  intros Hcls [H|H].
  - by eapply AsyncWallet_build_and_transact_outcome.
  - revert H. unfold AsyncWallet_approve, await_self_build_and_transact. steps.
    destruct (load_token_contract W (provider w) token); [|by intros [= <- <-]].
    destruct (provider_to_checksum_address N spender); [|by intros [= <- <-]].
    destruct (functions_call N _ _ _); [|by intros [= <- <-]].
    rewrite Hcls. by apply AsyncWallet_build_and_transact_outcome.
Qed.

(** On a [Wallet], [build_and_transact] always raises the [RuntimeError]
    of [asyncio.run], and neither [approve] nor [transfer] ever returns a
    transaction hash: the coroutine they run reaches, through [self], the
    blocking methods of [Wallet], whose [asyncio.run] is refused inside
    the running loop.  The wallet is left as it was. *)
Theorem Wallet_cannot_build_and_transact
    (W : World) (N : Node) (closure : ContractFunction) (value amount : Z)
    (gas gas_price : option Z) (token other : pyobj) (loop : bool) (w : WalletPy.t) :
  class_of w = Wallet_cls →
  Wallet_build_and_transact W N closure value gas gas_price loop w
    = (Raise RuntimeError_running_loop, w) ∧
  (∃ e, Wallet_approve W N token other amount loop w = (Raise e, w)) ∧
  (∃ e, Wallet_transfer W N token other amount gas gas_price loop w = (Raise e, w)).
Proof.
  intros Hcls. split; [|split].
  - unfold Wallet_build_and_transact, AsyncWallet_build_and_transact,
      await_self_build_transaction_params, Wallet_build_transaction_params.
    steps. destruct loop; [done|]. by rewrite Hcls.
  - unfold Wallet_approve, AsyncWallet_approve, await_self_build_and_transact,
      Wallet_build_and_transact.
    steps. destruct loop; [by eexists|].
    destruct (load_token_contract W (provider w) token); [|by eexists].
    destruct (provider_to_checksum_address N other); [|by eexists].
    destruct (functions_call N _ _ _); [|by eexists].
    rewrite Hcls. by eexists.
  - unfold Wallet_transfer, AsyncWallet_transfer. steps.
    destruct loop; [by eexists|].
    destruct (load_token_contract W (provider w) token); [|by eexists].
    destruct (provider_to_checksum_address N other); [|by eexists].
    destruct (functions_call N _ _ _); by eexists.
Qed.

(** [AsyncWallet.transfer] never sends anything, on any wallet: it awaits
    the contract function itself, so it raises before it reaches
    [build_and_transact], and the wallet is left as it was. *)
Theorem transfer_never_sends
    (W : World) (N : Node) (token recipient : pyobj) (amount : Z)
    (gas gas_price : option Z) (loop : bool) (w : WalletPy.t) :
  ∃ e, AsyncWallet_transfer W N token recipient amount gas gas_price loop w = (Raise e, w) ∧
       ∀ contract checksummed closure,
         load_token_contract W (provider w) token = Ok contract →
         provider_to_checksum_address N recipient = Ok checksummed →
         functions_call N contract "transfer"
           [PyScalar (PyStr checksummed); PyScalar (PyInt amount)] = Ok closure →
         e = TypeError_not_awaitable.
Proof.
  unfold AsyncWallet_transfer. steps.
  destruct (load_token_contract W (provider w) token) as [c|e]; [|by exists e].
  destruct (provider_to_checksum_address N recipient) as [a|e]; [|by exists e].
  destruct (functions_call N _ _ _) as [f|e] eqn:Hf.
  - by exists TypeError_not_awaitable.
  - exists e. split; [done|]. intros ??? [= <-] [= <-]. congruence.
Qed.

Lemma build_transaction_params_fields_witness :
  ∃ p,
    AsyncWallet_build_transaction_params (MockNode.node false) 5
      (PyScalar (PyStr MockNode.other)) (PyScalar PyNone) (Some 0) None true
      Mock.async_wallet = (Ok p, Mock.async_wallet) ∧
    p !! "nonce" = Some (PyScalar (PyInt 7)) ∧
    p !! "gas" = Some (PyScalar (PyInt 250000)) ∧
    p !! "to" = Some (PyScalar (PyStr MockNode.other)) ∧
    p !! "data" = None.
Proof.
  assert (∃ p,
    AsyncWallet_build_transaction_params (MockNode.node false) 5
      (PyScalar (PyStr MockNode.other)) (PyScalar PyNone) (Some 0) None true
      Mock.async_wallet = (Ok p, Mock.async_wallet)) as [p Hp]
    by (eexists; vm_compute; reflexivity).
  exists p. split; [exact Hp|].
  destruct (build_transaction_params_fields (MockNode.node false) 5
              (PyScalar (PyStr MockNode.other)) (PyScalar PyNone) (Some 0) None true
              Mock.async_wallet Mock.async_wallet p Hp)
    as (_ & _ & _ & Hnonce & _ & Hgas & _ & (to & [= <-] & Hto) & Hdata).
  split; [exact Hnonce|]. split; [exact Hgas|]. split; [exact Hto|exact Hdata].
Defined.

Lemma build_transaction_params_failure_witness :
  AsyncWallet_build_transaction_params (MockNode.node false) 5
    (PyBytes [Byte.x01]) (PyScalar PyNone) None None true Mock.async_wallet
  = (Raise (Web3Error 3), Mock.async_wallet) ∧
  provider_to_checksum_address (MockNode.node false) (PyBytes [Byte.x01])
  = Raise (Web3Error 3).
Proof.
  assert (AsyncWallet_build_transaction_params (MockNode.node false) 5
            (PyBytes [Byte.x01]) (PyScalar PyNone) None None true Mock.async_wallet
          = (Raise (Web3Error 3), Mock.async_wallet)) as H by (vm_compute; reflexivity).
  split; [exact H|].
  destruct (build_transaction_params_failure (MockNode.node false) 5
              (PyBytes [Byte.x01]) (PyScalar PyNone) None None true
              Mock.async_wallet Mock.async_wallet (Web3Error 3) H)
    as (_ & [[_ Hprice]|[_ Hsum]]).
  - discriminate Hprice.
  - exact Hsum.
Defined.

Lemma build_and_transact_signs_built_transaction_witness :
  ∃ p built,
    AsyncWallet_build_transaction_params (MockNode.node false) 0
      (PyScalar PyNone) (PyScalar PyNone) None None true Mock.async_wallet
      = (Ok p, Mock.async_wallet) ∧
    build_transaction (MockNode.node false) MockNode.closure p = Ok built ∧
    AsyncWallet_build_and_transact (Mock.world 1) (MockNode.node false) MockNode.closure 0
      None None false Mock.async_wallet
    = AsyncWallet_transact (Mock.world 1)
        (<["gas" := PyScalar (PyInt 21000)]> (delete "gas" built)) true Mock.async_wallet.
Proof.
  assert (∃ p,
    AsyncWallet_build_transaction_params (MockNode.node false) 0
      (PyScalar PyNone) (PyScalar PyNone) None None true Mock.async_wallet
      = (Ok p, Mock.async_wallet)) as [p Hp]
    by (eexists; vm_compute; reflexivity).
  destruct (build_transaction_params_has_gas _ _ _ _ _ _ _ _ _ _ Hp) as [g Hg].
  exists p, (<["to" := PyScalar (PyStr Mock.token_address)]> p).
  split; [exact Hp|]. split; [reflexivity|].
  rewrite (build_and_transact_signs_built_transaction (Mock.world 1) (MockNode.node false)
             MockNode.closure 0 None None false Mock.async_wallet p
             (<["to" := PyScalar (PyStr Mock.token_address)]> p) eq_refl Hp eq_refl).
  rewrite lookup_insert_ne by done. rewrite Hg. reflexivity.
Defined.

Lemma build_and_transact_all_or_nothing_witness :
  ∃ tx_hash w',
    AsyncWallet_approve (Mock.world 1) (MockNode.node false)
      (PyScalar (PyStr Mock.token_address)) (PyScalar (PyStr MockNode.other)) 5
      false Mock.async_wallet = (Ok tx_hash, w') ∧
    w' = set_nonce (nonce Mock.async_wallet + 1) Mock.async_wallet.
Proof.
  assert (∃ tx_hash w',
    AsyncWallet_approve (Mock.world 1) (MockNode.node false)
      (PyScalar (PyStr Mock.token_address)) (PyScalar (PyStr MockNode.other)) 5
      false Mock.async_wallet = (Ok tx_hash, w')) as (tx_hash & w' & H)
    by (eexists _, _; vm_compute; reflexivity).
  exists tx_hash, w'. split; [exact H|].
  exact (build_and_transact_all_or_nothing (Mock.world 1) (MockNode.node false)
           MockNode.closure 0 5 None None
           (PyScalar (PyStr Mock.token_address)) (PyScalar (PyStr MockNode.other))
           false Mock.async_wallet w' (Ok tx_hash) eq_refl (or_intror H)).
Defined.

Lemma Wallet_cannot_build_and_transact_witness :
  Wallet_build_and_transact (Mock.world 1) (MockNode.node false) MockNode.closure 0
    None None false Mock.wallet = (Raise RuntimeError_running_loop, Mock.wallet).
Proof.
  exact (proj1 (Wallet_cannot_build_and_transact (Mock.world 1) (MockNode.node false)
                  MockNode.closure 0 0 None None (PyScalar PyNone) (PyScalar PyNone) false
                  Mock.wallet eq_refl)).
Defined.

(** ** [create] *)

(** Construction depends on its network argument through validation
    only. *)
Lemma init_validate_congr NETWORK_MAP W cls private_key x y :
  __validate_network NETWORK_MAP (Some x) = __validate_network NETWORK_MAP (Some y) →
  WalletPy.__init__ NETWORK_MAP W cls private_key (Some x)
  = WalletPy.__init__ NETWORK_MAP W cls private_key (Some y).
Proof.
  intros H. unfold WalletPy.__init__, default. cbn [from_option id]. by rewrite H.
Qed.

Lemma validate_network_name NETWORK_MAP name entry :
  NETWORK_MAP !! name = Some entry → entry !! "network" = None →
  __validate_network NETWORK_MAP (Some (PyScalar (PyStr name)))
  = Ok (<["network" := PyStr name]> entry).
Proof.
  intros He Hnone. unfold __validate_network, default. cbn [from_option id].
  rewrite (proj2 (in_literal_recognized NETWORK_MAP (PyScalar (PyStr name))))
    by (exists name; eauto).
  cbn. unfold getitem, NetworkInfo_call. rewrite He. cbn. by rewrite Hnone.
Qed.

Lemma validate_network_complete NETWORK_MAP d :
  complete (PyDict d) → __validate_network NETWORK_MAP (Some (PyDict d)) = Ok d.
Proof.
  intros Hcom. unfold __validate_network, default. cbn [from_option id _in_literal].
  by rewrite (proj2 (has_keys_complete _) Hcom).
Qed.

(** [create] validates the network twice: once itself and once more in
    the constructor, on the network info the first validation gave.  For
    a recognized name whose table entry has all the other keys of a network
    info this changes nothing: [create] is the construction from the name
    with a newly created key. *)
Theorem create_recognized_name
    (NETWORK_MAP : gmap string NetworkInfo) (W : World) (N : Node)
    (cls : wallet_class) (name : string) (entry : NetworkInfo) :
  NETWORK_MAP !! name = Some entry →
  entry !! "network" = None →
  complete (PyDict (<["network" := PyStr name]> entry)) →
  create NETWORK_MAP W N cls (Some (PyScalar (PyStr name)))
  = result_bind (Account_create_key N) (λ private_key,
      WalletPy.__init__ NETWORK_MAP W cls private_key (Some (PyScalar (PyStr name)))).
Proof.
  intros He Hnone Hcom. unfold create, default. cbn [from_option id].
  rewrite (validate_network_name _ _ _ He Hnone). cbn [result_bind].
  destruct (Account_create_key N) as [key|]; [|done]. cbn [result_bind].
  apply init_validate_congr.
  by rewrite (validate_network_name _ _ _ He Hnone), (validate_network_complete _ _ Hcom).
Qed.

(** For a recognized name whose table entry lacks a key of a network info
    (a misspelt [chain_id], say), [create] raises the invalid-network
    error, carrying the expanded network info, although validation, and so
    the constructor, accept the name. *)
Theorem create_incomplete_entry
    (NETWORK_MAP : gmap string NetworkInfo) (W : World) (N : Node)
    (cls : wallet_class) (name private_key : string) (entry : NetworkInfo) :
  NETWORK_MAP !! name = Some entry →
  entry !! "network" = None →
  ¬ complete (PyDict (<["network" := PyStr name]> entry)) →
  Account_create_key N = Ok private_key →
  __validate_network NETWORK_MAP (Some (PyScalar (PyStr name)))
    = Ok (<["network" := PyStr name]> entry) ∧
  create NETWORK_MAP W N cls (Some (PyScalar (PyStr name)))
    = Raise (InvalidNetworkInfo (PyDict (<["network" := PyStr name]> entry))).
Proof.
  intros He Hnone Hcom Hkey. split; [by apply validate_network_name|].
  unfold create, default. cbn [from_option id].
  rewrite (validate_network_name _ _ _ He Hnone). cbn [result_bind].
  rewrite Hkey. cbn [result_bind].
  unfold WalletPy.__init__, default. cbn [from_option id].
  rewrite validate_network_invalid; [done| |done].
  by intros (? & [=] & _).
Qed.

Lemma create_recognized_name_witness :
  create BaseWallet.__network_map (Mock.world 137) (MockNode.node false) AsyncWallet_cls
    (Some (PyScalar (PyStr "Polygon")))
  = WalletPy.__init__ BaseWallet.__network_map (Mock.world 137) AsyncWallet_cls "0x02"
      (Some (PyScalar (PyStr "Polygon"))).
Proof.
  apply (create_recognized_name BaseWallet.__network_map (Mock.world 137)
           (MockNode.node false) AsyncWallet_cls "Polygon"
           (entry "chain_id" 137 "wss://polygon-bor-rpc.publicnode.com" "MATIC"
              "https://polygonscan.com")).
  - vm_compute. reflexivity.
  - vm_compute. reflexivity.
  - apply has_keys_complete. vm_compute. reflexivity.
Defined.

Lemma create_incomplete_entry_witness :
  ∃ info,
    __validate_network BaseWallet.__network_map (Some (PyScalar (PyStr "opBNB"))) = Ok info ∧
    create BaseWallet.__network_map (Mock.world 204) (MockNode.node false) AsyncWallet_cls
      (Some (PyScalar (PyStr "opBNB"))) = Raise (InvalidNetworkInfo (PyDict info)).
Proof.
  eexists.
  apply (create_incomplete_entry BaseWallet.__network_map (Mock.world 204)
           (MockNode.node false) AsyncWallet_cls "opBNB" "0x02"
           (entry "chaind_id" 204 "wss://opbnb-rpc.publicnode.com" "BNB"
              "https://opbnb.bscscan.com/")).
  - vm_compute. reflexivity.
  - vm_compute. reflexivity.
  - intros H. apply has_keys_complete in H. vm_compute in H. discriminate H.
  - reflexivity.
Defined.

(** ** The contract cache of [_load_token_contract] *)

Import TokenContracts.

Lemma address_eqb_refl a : address_eqb a a = true.
Proof.
  destruct a; cbn; [apply String.eqb_refl|by apply bool_decide_eq_true..].
Qed.

(** The outcome of [_load_token_contract] in terms of the cache. *)
Lemma load_token_contract_run W abi self address loop s :
  _load_token_contract W abi self address loop s =
  match cache_take (self, address) (cache_of s) with
  | Some (hit, rest) => (Ok hit.2, State (self_of s) (hit :: rest))
  | None =>
      match load_token_contract_body W abi address loop s with
      | (Ok contract, _) =>
          (Ok contract, State (self_of s) (cache_add (self, address) contract (cache_of s)))
      | (Raise e, _) => (Raise e, s)
      end
  end.
Proof.
  unfold _load_token_contract, load_token_contract_body.
  cbv beta iota zeta delta [bind lift get modify ret raise].
  destruct (cache_take _ _) as [[hit rest]|]; [done|].
  destruct (to_checksum_address W _); [|done]. by destruct abi.
Qed.

(** A load that raises (the address cannot be checksummed, the ABI file
    cannot be read) caches nothing: the state is as it was, and the next
    load of the same address runs the body again. *)
Theorem load_token_contract_failure_not_cached
    (W : World) (abi : result string) (self : nat) (address : AnyAddress)
    (loop : bool) (s s' : state) (e : exn) :
  _load_token_contract W abi self address loop s = (Raise e, s') →
  s' = s ∧ cache_take (self, address) (cache_of s) = None.
Proof.
  rewrite load_token_contract_run.
  destruct (cache_take _ _) as [[hit rest]|]; [done|].
  destruct (load_token_contract_body _ _ _ _ _) as [[c|e'] s1]; [done|].
  by intros [= <- <-].
Qed.

(** The cache outlives a change of network: a contract loaded before the
    network setter ran is returned again afterwards for an equal address
    (a [HexBytes] for a [bytes], say), still bound to the provider the
    wallet had when it was first loaded, while the wallet's provider is now
    the one of the new network. *)
Theorem load_token_contract_stale_after_network_switch
    (W : World) (abi : result string) (self : nat) (address address' : AnyAddress)
    (value : pyobj) (loop loop1 loop2 : bool) (s s1 s2 : state) (contract : Contract) :
  cache_take (self, address) (cache_of s) = None →
  _load_token_contract W abi self address loop s = (Ok contract, s1) →
  TokenContracts.network_setter W value loop1 s1 = (Ok tt, s2) →
  address_eqb address address' = true →
  _load_token_contract W abi self address' loop2 s2 = (Ok contract, s2) ∧
  contract_provider contract = BaseWallet._provider (self_of s) ∧
  ∃ rpc, BaseWallet.network (self_of s2) !! "rpc" = Some rpc ∧
         BaseWallet._provider (self_of s2) = Connect AsyncWeb3 AsyncHTTPProvider rpc.
Proof.
  intros Hmiss Hload Hset Heq.
  rewrite load_token_contract_run, Hmiss in Hload.
  unfold load_token_contract_body in Hload.
  cbv beta iota zeta delta [bind lift get modify ret raise] in Hload.
  destruct (to_checksum_address W _) as [checksummed|]; [|done].
  destruct abi as [abi|]; [|done]. injection Hload as <- <-.
  unfold TokenContracts.network_setter in Hset. cbn [self_of cache_of] in Hset.
  destruct (BaseWallet.network_setter W value loop1 (self_of s)) as [r b'] eqn:Hb.
  injection Hset as -> <-.
  split; [|split; [done|]].
  - rewrite load_token_contract_run. cbn [cache_of cache_add cache_take fst snd].
    unfold key_eqb. cbn [fst snd]. by rewrite Nat.eqb_refl, Heq.
  - cbn [self_of]. revert Hb. unfold BaseWallet.network_setter.
    cbv beta iota zeta delta [bind lift get modify ret raise].
    destruct (BaseWallet.__validate_network value) as [info|]; [|done].
    unfold getitem. destruct (info !! "rpc") as [rpc|] eqn:Hrpc; [|done].
    destruct (eth_get_transaction_count W _ _); [|done].
    intros [= <-]. by exists rpc.
Qed.

Lemma load_token_contract_failure_not_cached_witness :
  _load_token_contract (Mock.world 1) (Raise (Web3Error 4)) 0
    (AddrStr Mock.token_address) false MockNode.fresh
  = (Raise (Web3Error 4), MockNode.fresh) ∧
  MockNode.fresh = MockNode.fresh ∧
  cache_take (0%nat, AddrStr Mock.token_address) (cache_of MockNode.fresh) = None.
Proof.
  split; [vm_compute; reflexivity|].
  apply (load_token_contract_failure_not_cached (Mock.world 1) (Raise (Web3Error 4)) 0
           (AddrStr Mock.token_address) false MockNode.fresh MockNode.fresh (Web3Error 4)).
  vm_compute. reflexivity.
Defined.

Lemma load_token_contract_stale_after_network_switch_witness :
  ∃ contract s1 s2,
    _load_token_contract (Mock.world 137) (Ok "[]") 0 (AddrBytes [Byte.x01]) false
      MockNode.fresh = (Ok contract, s1) ∧
    TokenContracts.network_setter (Mock.world 137) (PyScalar (PyStr "Polygon")) false s1
      = (Ok tt, s2) ∧
    _load_token_contract (Mock.world 137) (Ok "[]") 0 (AddrHexBytes [Byte.x01]) false s2
      = (Ok contract, s2) ∧
    contract_provider contract = Connect Web3 HTTPProvider (PyStr "https://eth.example.org") ∧
    BaseWallet._provider (self_of s2)
      = Connect AsyncWeb3 AsyncHTTPProvider (PyStr Mock.polygon_rpc).
Proof.
  eexists _, _, _.
  split; [vm_compute; reflexivity|]. split; [vm_compute; reflexivity|].
  edestruct (load_token_contract_stale_after_network_switch (Mock.world 137) (Ok "[]") 0
               (AddrBytes [Byte.x01]) (AddrHexBytes [Byte.x01])
               (PyScalar (PyStr "Polygon")) false false false MockNode.fresh)
    as (Hagain & Hprovider & _).
  - reflexivity.
  - vm_compute. reflexivity.
  - vm_compute. reflexivity.
  - reflexivity.
  - split; [exact Hagain|]. split; [exact Hprovider|]. vm_compute. reflexivity.
Defined.
